(** * The local HTTP test server ([test_server/test_server.py])

    A shallow embedding of the request handlers of the test server, and
    the properties of the range-aware file streamer, the JSON accessor,
    the httpbin-style echo handlers and the header echo endpoint.

    Conventions.
    - Python [int] is [Z]; [bytes] is [list byte]; [str] is [string].
      In a header value a character is a code point below 256, which is
      all a WSGI header can hold; the text of a decoded body is whatever
      the decoder of the [Runtime] returns.
    - A Python [dict] with string keys is a [gmap string _]; werkzeug's
      ordered multi-valued containers are association lists.
    - A handler that can raise returns a [result]; the locals that a
      [try] block assigns are threaded through a small state monad, so
      that an exception leaves the assignments made before it.
    - The files directory maps a path to what is there, a regular file
      or a directory; sizes and offsets are those of a 64-bit [off_t].
      Other kinds of directory entries are not modelled.
    - [time.sleep] only passes time; the generator records the seconds
      slept and nothing else depends on them. *)

From Stdlib Require Import ZArith QArith Qround Ascii Lia.
From Stdlib.Init Require Import Byte.
From stdpp Require Import base option list strings gmap.

Local Open Scope Z_scope.
Set Warnings "-register-all,-clear-no-such-hyp".

(** ** Python built-ins used by the handlers *)

Module Py.

Inductive exn : Type :=
| ValueError
| OSError
| OverflowError
| RecursionError
| FileNotFoundError
| IsADirectoryError
| UnicodeDecodeError
| BadRequest.

(** [except ValueError] also catches [UnicodeDecodeError], its
    subclass. *)
Definition is_value_error (e : exn) : bool :=
  match e with
  | ValueError | UnicodeDecodeError => true
  | _ => false
  end.

(** The outcome of a call that may raise. *)
Inductive result (A : Type) : Type :=
| Ok (a : A)
| Raise (e : exn).
Arguments Ok {A} a.
Arguments Raise {A} e.

(** Truth value of a [str] and of a [bytes] object. *)
Definition str_truthy (s : string) : bool :=
  match s with
  | EmptyString => false
  | String _ _ => true
  end.

Definition bytes_truthy (b : list byte) : bool :=
  match b with
  | [] => false
  | _ :: _ => true
  end.

(** [s.replace(old, new)] for a non-empty [old]: occurrences are
    replaced from left to right and do not overlap.  [skip] counts the
    characters of the occurrence being replaced that are still to be
    dropped. *)
Fixpoint replace_go (old new : string) (skip : nat) (s : string) : string :=
  match s with
  | EmptyString => EmptyString
  | String c r =>
      match skip with
      | S k => replace_go old new k r
      | O =>
          if String.prefix old s
          then new +:+ replace_go old new (Nat.pred (String.length old)) r
          else String c (replace_go old new O r)
      end
  end.

Definition replace (old new s : string) : string := replace_go old new O s.

(** [s.split(sep)] for a one-character separator. *)
Fixpoint split (sep : ascii) (s : string) : list string :=
  match s with
  | EmptyString => [EmptyString]
  | String c r =>
      if Ascii.eqb c sep then EmptyString :: split sep r
      else match split sep r with
           | p :: ps => String c p :: ps
           | [] => [String c EmptyString]
           end
  end.

(** [s.endswith(suffix)] and [s.startswith(prefix)]. *)
Definition startswith (s p : string) : bool := String.prefix p s.

Definition endswith (s suffix : string) : bool :=
  String.prefix (String.rev suffix) (String.rev s).

(** *** [int(s)] on a string, base ten

    Leading white space, an optional sign, digits with single
    underscores between them, trailing white space.  Among the
    characters below 256 the white space of [int] is tab, line feed,
    vertical tab, form feed, carriage return, space, U+0085 and
    U+00A0.  A numeral of more than [int_max_str_digits] digits is
    refused, as the interpreter does by default. *)
Definition code (c : ascii) : Z := Z.of_N (N_of_ascii c).

Definition is_space (c : ascii) : bool :=
  ((9 <=? code c) && (code c <=? 13))
  || (code c =? 32) || (code c =? 133) || (code c =? 160).

(** The value of a decimal digit, [0] being character 48. *)
Definition digit_of (c : ascii) : option Z :=
  if (48 <=? code c) && (code c <=? 57) then Some (code c - 48) else None.

Fixpoint all_space (s : string) : bool :=
  match s with
  | EmptyString => true
  | String c r => is_space c && all_space r
  end.

Fixpoint skip_space (s : string) : string :=
  match s with
  | EmptyString => EmptyString
  | String c r => if is_space c then skip_space r else s
  end.

(** The digits after the first one; [acc] is the value read so far. *)
Fixpoint scan_digits (s : string) (acc : Z) : option Z :=
  match s with
  | EmptyString => Some acc
  | String c r =>
      match digit_of c with
      | Some d => scan_digits r (10 * acc + d)
      | None =>
          if Ascii.eqb c "_" then
            match r with
            | String c' r' =>
                match digit_of c' with
                | Some d => scan_digits r' (10 * acc + d)
                | None => None
                end
            | EmptyString => None
            end
          else if all_space s then Some acc else None
      end
  end.

Definition int_unsigned (s : string) : option Z :=
  match s with
  | String c r =>
      match digit_of c with
      | Some d => scan_digits r d
      | None => None
      end
  | EmptyString => None
  end.

(** [sys.get_int_max_str_digits()], by default. *)
Definition int_max_str_digits : Z := 4300.

(** The number of digit characters of [s]. *)
Fixpoint count_digits (s : string) : Z :=
  match s with
  | EmptyString => 0
  | String c r =>
      match digit_of c with
      | Some _ => 1 + count_digits r
      | None => count_digits r
      end
  end.

Definition int_ (s : string) : result Z :=
  let parsed :=
    match skip_space s with
    | String "+" r => int_unsigned r
    | String "-" r => Z.opp <$> int_unsigned r
    | t => int_unsigned t
    end in
  match parsed with
  | Some n =>
      if int_max_str_digits <? count_digits s then Raise ValueError else Ok n
  | None => Raise ValueError
  end.

(** [int(x)] on a float: the fraction is dropped. *)
Definition int_of_float (x : Q) : Z :=
  if Qle_bool 0 x then Qfloor x else Qceiling x.

(** *** [str(n)] of an integer: the decimal numeral, with a leading
    minus sign for a negative one. *)
Definition digit_char (d : Z) : ascii := ascii_of_N (Z.to_N (48 + d)).

(** Digits of [n >= 0] in front of [acc]; [fuel] further digits at most. *)
Fixpoint str_go (fuel : nat) (n : Z) (acc : string) : string :=
  let acc' := String (digit_char (n mod 10)) acc in
  match fuel with
  | O => acc'
  | S k => if n <? 10 then acc' else str_go k (n / 10) acc'
  end.

Definition str_nat (n : Z) : string :=
  str_go (Z.to_nat (Z.log2 n)) n EmptyString.

(** The handlers format sizes, offsets, counts and numbers that [int]
    has read: all of at most [int_max_str_digits] digits, which [str]
    never refuses. *)
Definition str (n : Z) : string :=
  if n <? 0 then String "-" (str_nat (- n)) else str_nat n.

End Py.


(** ** JSON values, as [json.loads] builds them *)

Module Json.

(** A float is kept as its IEEE-754 binary64 bit pattern: only its
    truth value is ever inspected. *)
Inductive value : Type :=
| JNone                                   (* null -> None *)
| JBool (b : bool)
| JInt (n : Z)
| JFloat (bits : Z)
| JStr (s : string)
| JList (items : list value)
| JDict (entries : list (string * value)).

(** Truth value of the Python object: [None], [False], zero, and the
    empty string, list and dict are false. *)
Definition truthy (v : value) : bool :=
  match v with
  | JNone => false
  | JBool b => b
  | JInt n => negb (n =? 0)
  | JFloat bits => negb (Z.land bits (2 ^ 63 - 1) =? 0)
  | JStr s => Py.str_truthy s
  | JList items => match items with [] => false | _ :: _ => true end
  | JDict entries => match entries with [] => false | _ :: _ => true end
  end.

End Json.

(** ** Library functions the handlers call

    Functions of the interpreter and of the web framework whose results
    the handlers only pass on or branch on.  For an [option], [None]
    stands for the call raising. *)

Class Runtime : Type := {
  (** [s.lower()] *)
  str_lower : string → string;
  (** [time.strftime('%a, %d %b %Y %H:%M:%S GMT', time.gmtime(t))] on a
      float [t]; a time out of the platform's range raises [OSError] or
      [OverflowError] *)
  http_date : Q → Py.result string;
  (** [b.decode('utf-8')]; raises [UnicodeDecodeError] *)
  utf8_decode : list byte → option string;
  (** [json.loads(s)] on a [str]; the handlers catch whatever it
      raises *)
  json_loads : string → option Json.value;
  (** the JSON provider's [loads] on the raw body, as [request.json]
      calls it: it raises [ValueError] (or a subclass) for a body that
      is not JSON, and [RecursionError] for one nested too deeply *)
  json_loads_bytes : list byte → Py.result Json.value
}.

(** ** werkzeug containers *)

Module Werkzeug.

(** [MultiDict]: an ordered mapping from a key to the list of its
    values, in order of arrival. *)
Abbreviation MultiDict := (list (string * list string)).

Fixpoint md_add (k v : string) (md : MultiDict) : MultiDict :=
  match md with
  | [] => [(k, [v])]
  | (k', vs) :: rest =>
      if decide (k = k') then (k', vs ++ [v]) :: rest
      else (k', vs) :: md_add k v rest
  end.

(** The multi-dict of a parsed query string or form. *)
Definition md_of_pairs (pairs : list (string * string)) : MultiDict :=
  foldl (λ md kv, md_add kv.1 kv.2 md) [] pairs.

(** [md.items()]: each key once, with its first value. *)
Definition md_items (md : MultiDict) : list (string * string) :=
  omap (λ kvs, match kvs.2 with
               | v :: _ => Some (kvs.1, v)
               | [] => None
               end) md.

(** The value of the first pair with the given key. *)
Fixpoint assoc_first (key : string) (l : list (string * string))
    : option string :=
  match l with
  | [] => None
  | (k, v) :: rest => if decide (k = key) then Some v else assoc_first key rest
  end.

(** [md.get(key)]: the first value of the key, or [None]. *)
Definition md_get (md : MultiDict) (key : string) : option string :=
  assoc_first key (md_items md).

(** [md.to_dict()]: a plain dict of the first values. *)
Definition md_to_dict (md : MultiDict) : gmap string string :=
  list_to_map (md_items md).

(** [Headers]: an ordered list of (name, value) pairs; names compare
    without regard to case. *)
Abbreviation Headers := (list (string * string)).

Fixpoint has_newline (v : string) : bool :=
  match v with
  | EmptyString => false
  | String c r => Ascii.eqb c "010" || Ascii.eqb c "013" || has_newline r
  end.

Section headers.
Context `{Runtime}.

Definition same_name (k k' : string) : bool :=
  bool_decide (str_lower k = str_lower k').

(** The tail of [Headers.set]: the first entry named [k] is
    replaced, the later ones are dropped. *)
Fixpoint set_go (k v : string) (hs : Headers) : option Headers :=
  match hs with
  | [] => None
  | (k', v') :: rest =>
      if same_name k' k
      then Some ((k, v) :: filter (λ t, same_name t.1 k = false) rest)
      else (λ rest', (k', v') :: rest') <$> set_go k v rest
  end.

(** [headers[k] = v], that is [Headers.set(k, v)]: a value with a
    line break is refused; an existing header of that name is
    replaced in place, otherwise the pair is appended. *)
Definition headers_set (k v : string) (hs : Headers) : Py.result Headers :=
  if has_newline v then Py.Raise Py.ValueError
  else Py.Ok (match set_go k v hs with
              | Some hs' => hs'
              | None => hs ++ [(k, v)]
              end).

End headers.

(** [Headers(d)] for a dict [d]: every pair is added, and a value with
    a line break is refused. *)
Definition headers_of_dict (d : gmap string string) : Py.result Headers :=
  if existsb (λ kv, has_newline kv.2) (map_to_list d)
  then Py.Raise Py.ValueError
  else Py.Ok (map_to_list d).

End Werkzeug.

(** ** Files *)

Module Fs.

(** File sizes and offsets are of type [off_t], a signed 64-bit
    integer. *)
Definition off_t_min : Z := - 2 ^ 63.
Definition off_t_max : Z := 2 ^ 63 - 1.

(** A regular file: its bytes and its modification time in seconds
    ([st_mtime], a float).  Its size is an [off_t]. *)
Record file : Type := {
  content : list byte;
  st_mtime : Q;
  fits : Is_true (Z.of_nat (length content) <=? off_t_max)
}.

(** A directory: the [st_size] and [st_mtime] of its [stat]. *)
Record dir : Type := {
  d_size : Z;
  d_mtime : Q;
  d_fits : Is_true ((0 <=? d_size) && (d_size <=? off_t_max))
}.

(** What [os.path.exists] finds at a path. *)
Inductive node : Type :=
| Regular (f : file)
| Directory (d : dir).

(** [os.path.getsize], which is [os.stat(path).st_size] *)
Definition getsize (n : node) : Z :=
  match n with
  | Regular f => Z.of_nat (length (content f))
  | Directory d => d_size d
  end.

(** [os.stat(path).st_mtime] *)
Definition getmtime (n : node) : Q :=
  match n with
  | Regular f => st_mtime f
  | Directory d => d_mtime d
  end.

(** A file object opened with mode ['rb']: the bytes it reads from and
    the current position. *)
Record file_obj : Type := { f_content : list byte; f_pos : Z }.

(** [open(path, 'rb')] on what is at the path. *)
Definition open (n : node) : Py.result file_obj :=
  match n with
  | Regular f => Py.Ok {| f_content := content f; f_pos := 0 |}
  | Directory _ => Py.Raise Py.IsADirectoryError
  end.

(** [f.seek(pos)]: a position that is no [off_t] is refused with
    [ValueError], a negative one with [OSError]; a position past the
    end of the file is accepted.  The largest offset of the file system
    is taken to be that of [off_t], as on XFS, btrfs or tmpfs; the
    handlers seek to positions below the size that the file had. *)
Definition seek (f : file_obj) (pos : Z) : Py.result file_obj :=
  if (pos <? off_t_min) || (off_t_max <? pos) then Py.Raise Py.ValueError
  else if pos <? 0 then Py.Raise Py.OSError
  else Py.Ok {| f_content := f_content f; f_pos := pos |}.

(** [f.read(n)]: up to [n] bytes from the current position, fewer only
    at the end of the file; a negative [n] reads to the end. *)
Definition read (f : file_obj) (n : Z) : list byte * file_obj :=
  let rest := drop (Z.to_nat (f_pos f)) (f_content f) in
  let chunk := if n <? 0 then rest else take (Z.to_nat n) rest in
  (chunk, {| f_content := f_content f;
             f_pos := f_pos f + Z.of_nat (length chunk) |}).

End Fs.

(** A regular file is used where a directory entry is expected. *)
Coercion Fs.Regular : Fs.file >-> Fs.node.

(** ** The handlers *)

Module Server.
Import Werkzeug.

(** Configuration for file delays (total duration in seconds). *)
Definition FILE_DELAYS : gmap string Q :=
  {[ "5MB-test.ZIP" := 1%Q; "57MB-test.ZIP" := 10%Q; "1MB-test.bin" := (1 # 2)%Q ]}.

(** What a handler sees of the request.  [req_headers] is
    [dict(request.headers)]; [req_query] and [req_form] are the parsed
    query string and form, pair by pair; [req_data] is [request.data]. *)
Record request : Type := {
  req_query : list (string * string);
  req_headers : gmap string string;
  req_mimetype : string;
  req_data : list byte;
  req_form : list (string * string);
  req_remote_addr : string;
  req_url : string
}.

Definition args (r : request) : MultiDict := md_of_pairs (req_query r).
Definition form (r : request) : MultiDict := md_of_pairs (req_form r).

(** *** The chunk generator of [serve_file]

    [closure] holds the variables of [serve_file] that [generate]
    refers to.  The generator is the state it is suspended in; [next]
    runs it to its next [yield]. *)
Record closure : Type := {
  file_path : string;
  start_byte : Z;
  end_byte : Z;
  content_length : Z;
  chunk_size : Z;
  target_duration : Q
}.

Inductive generator : Type :=
| Created (env : closure)
| Suspended (env : closure) (f : Fs.file_obj) (bytes_to_send : Z)
    (delay_per_chunk : Q) (chunk : list byte) (slept : Q)
| Finished.

Inductive step : Type :=
| Yield (chunk : list byte) (g : generator)
| StopIteration
| Raised (e : Py.exn).

Definition Qpositive (q : Q) : bool := negb (Qle_bool q 0).

(** The [while] loop, from its test to the next [yield]. *)
Definition loop (env : closure) (f : Fs.file_obj) (bytes_to_send : Z)
    (delay_per_chunk slept : Q) : step :=
  if 0 <? bytes_to_send then
    let read_size := Z.min (chunk_size env) bytes_to_send in
    let '(chunk, f) := Fs.read f read_size in
    if negb (Py.bytes_truthy chunk) then StopIteration
    else Yield chunk (Suspended env f bytes_to_send delay_per_chunk chunk slept)
  else StopIteration.

Definition next (fs : gmap string Fs.node) (g : generator) : step :=
  match g with
  | Created env =>
      match fs !! file_path env with
      | None => Raised Py.FileNotFoundError
      | Some node =>
          match Fs.open node with
          | Py.Raise e => Raised e
          | Py.Ok f =>
              match Fs.seek f (start_byte env) with
              | Py.Raise e => Raised e
              | Py.Ok f =>
                  let bytes_to_send := content_length env in
                  let num_chunks :=
                    (bytes_to_send + chunk_size env - 1) / chunk_size env in
                  let delay_per_chunk :=
                    if Qpositive (target_duration env) && (0 <? num_chunks)
                    then (target_duration env / inject_Z num_chunks)%Q
                    else 0%Q in
                  loop env f bytes_to_send delay_per_chunk 0%Q
              end
          end
      end
  | Suspended env f bytes_to_send delay_per_chunk chunk slept =>
      let bytes_to_send := bytes_to_send - Z.of_nat (length chunk) in
      let slept :=
        if Qpositive delay_per_chunk then (slept + delay_per_chunk)%Q
        else slept in
      loop env f bytes_to_send delay_per_chunk slept
  | Finished => StopIteration
  end.

(** The server iterating over the body: at most [fuel] calls of
    [next]. *)
Inductive ending : Type :=
| Complete
| Failed (e : Py.exn)
| Pending (g : generator).

Fixpoint drain (fs : gmap string Fs.node) (fuel : nat) (g : generator)
    : list (list byte) * ending :=
  match fuel with
  | O => ([], Pending g)
  | S k =>
      match next fs g with
      | Yield chunk g' =>
          let '(chunks, e) := drain fs k g' in (chunk :: chunks, e)
      | StopIteration => ([], Complete)
      | Raised e => ([], Failed e)
      end
  end.

(** *** Responses *)
Inductive body : Type :=
| Fixed (text : string)
| Streamed (g : generator).

Record response : Type := {
  status : Z;
  headers : Headers;
  body_of : body
}.

(** [Response(text, status)]: the framework adds the default content
    type and the length of the text. *)
Definition Response_text (text : string) (code : Z) : response :=
  {| status := code;
     headers := [("Content-Type", "text/html; charset=utf-8");
                 ("Content-Length", Py.str (Z.of_nat (String.length text)))];
     body_of := Fixed text |}.

(** [Response(stream, status=..., headers=...)]: the headers are built
    with [Headers(headers)], which can raise. *)
Definition Response_stream (g : generator) (code : Z)
    (hdrs : gmap string string) : Py.result response :=
  match headers_of_dict hdrs with
  | Py.Ok hs => Py.Ok {| status := code; headers := hs; body_of := Streamed g |}
  | Py.Raise e => Py.Raise e
  end.

(** *** Range handling of [serve_file]

    The three locals that the [try] block assigns. *)
Record locals : Type := { l_start_byte : Z; l_end_byte : Z; l_status_code : Z }.

Definition M (A : Type) : Type := locals → Py.result A * locals.

#[export] Instance M_ret : MRet M := λ A a s, (Py.Ok a, s).
#[export] Instance M_bind : MBind M := λ A B k m s,
  match m s with
  | (Py.Ok a, s') => k a s'
  | (Py.Raise e, s') => (Py.Raise e, s')
  end.

Definition lift {A : Type} (r : Py.result A) : M A := λ s, (r, s).
Definition get_end_byte : M Z := λ s, (Py.Ok (l_end_byte s), s).
Definition set_start_byte (v : Z) : M unit := λ s,
  (Py.Ok (), {| l_start_byte := v; l_end_byte := l_end_byte s;
                l_status_code := l_status_code s |}).
Definition set_end_byte (v : Z) : M unit := λ s,
  (Py.Ok (), {| l_start_byte := l_start_byte s; l_end_byte := v;
                l_status_code := l_status_code s |}).
Definition set_status_code (v : Z) : M unit := λ s,
  (Py.Ok (), {| l_start_byte := l_start_byte s; l_end_byte := l_end_byte s;
                l_status_code := v |}).

(** [parts[i]]; the source guards every use by the length. *)
Definition item (parts : list string) (i : nat) : string :=
  match parts !! i with
  | Some p => p
  | None => ""
  end.

(** The body of the [try] block. *)
Definition parse_range (total_size : Z) (range_header : string) : M unit :=
  let range_val := Py.replace "bytes=" "" range_header in
  let parts := Py.split "-" range_val in
  (if bool_decide (item parts 0 = "") && (1 <? Z.of_nat (length parts))
      && Py.str_truthy (item parts 1)
   then
     suffix_length ← lift (Py.int_ (item parts 1));
     set_start_byte (total_size - suffix_length);;
     set_end_byte (total_size - 1)
   else
     (if Py.str_truthy (item parts 0)
      then v ← lift (Py.int_ (item parts 0)); set_start_byte v
      else mret ());;
     (if (1 <? Z.of_nat (length parts)) && Py.str_truthy (item parts 1)
      then v ← lift (Py.int_ (item parts 1)); set_end_byte v
      else mret ());;
     e ← get_end_byte;
     if total_size <=? e then set_end_byte (total_size - 1) else mret ());;
  set_status_code 206.

(** The locals after the range handling: the defaults, then the [try]
    block when the header is there and not empty; an exception is
    logged and the locals stay as they are at that point. *)
Definition resolve_range (total_size : Z) (range_header : option string) : locals :=
  let init := {| l_start_byte := 0; l_end_byte := total_size - 1;
                 l_status_code := 200 |} in
  match range_header with
  | Some h => if Py.str_truthy h then (parse_range total_size h init).2 else init
  | None => init
  end.

Definition dquote : string := String "034" "".

Section handlers.
Context `{Runtime}.

Definition serve_file (fs : gmap string Fs.node) (filename : string)
    (r : request) : Py.result response :=
  match fs !! filename with
  | None => Py.Ok (Response_text "File not found" 404)
  | Some node =>
      let total_size := Fs.getsize node in
      let chunk_size := 64 * 1024 in
      let range_header := req_headers r !! "Range" in
      let l := resolve_range total_size range_header in
      if l_end_byte l <? l_start_byte l
      then Py.Ok (Response_text "Requested Range Not Satisfiable" 416)
      else
        let content_length := l_end_byte l - l_start_byte l + 1 in
        let target_duration := default 0%Q (FILE_DELAYS !! filename) in
        let no_content_length :=
          bool_decide (md_get (args r) "no_content_length" = Some "true") in
        let generate :=
          Created {| file_path := filename;
                     start_byte := l_start_byte l;
                     end_byte := l_end_byte l;
                     content_length := content_length;
                     chunk_size := chunk_size;
                     target_duration := target_duration |} in
        let etag :=
          dquote +:+ Py.str (Py.int_of_float (Fs.getmtime node)) +:+ "-"
                 +:+ Py.str (Fs.getsize node) +:+ dquote in
        match http_date (Fs.getmtime node) with
        | Py.Raise e => Py.Raise e
        | Py.Ok last_modified =>
            let headers : gmap string string :=
              {[ "Accept-Ranges" := "bytes"; "ETag" := etag;
                 "Last-Modified" := last_modified ]} in
            let headers :=
              if negb no_content_length
              then <["Content-Length" := Py.str content_length]> headers
              else headers in
            let headers :=
              if l_status_code l =? 206
              then <["Content-Range" :=
                       "bytes " +:+ Py.str (l_start_byte l) +:+ "-"
                                +:+ Py.str (l_end_byte l) +:+ "/"
                                +:+ Py.str total_size]> headers
              else headers in
            let headers :=
              <["Content-Disposition" := "attachment; filename=" +:+ filename]>
                headers in
            let headers :=
              if Py.endswith (str_lower filename) ".zip"
              then <["Content-Type" := "application/zip"]> headers
              else <["Content-Type" := "application/octet-stream"]> headers in
            Response_stream generate (l_status_code l) headers
        end
  end.

(** *** The JSON accessor *)

(** [request.is_json] *)
Definition is_json (r : request) : bool :=
  let mt := req_mimetype r in
  bool_decide (mt = "application/json")
  || (Py.startswith mt "application/" && Py.endswith mt "+json").

(** [request.json], read when [is_json] holds: the decoded body; a
    [ValueError] of the decoder is turned into the framework's
    [BadRequest], any other exception is passed on. *)
Definition request_json (r : request) : Py.result Json.value :=
  match json_loads_bytes (req_data r) with
  | Py.Ok v => Py.Ok v
  | Py.Raise e =>
      if Py.is_value_error e then Py.Raise Py.BadRequest else Py.Raise e
  end.

(** The [try] block of [get_json_data]: [Ok (Some v)] is
    [return v], [Ok None] is falling out of the block. *)
Definition try_load (r : request) : Py.result (option Json.value) :=
  if Py.bytes_truthy (req_data r) then
    match utf8_decode (req_data r) with
    | None => Py.Raise Py.UnicodeDecodeError
    | Some text =>
        match json_loads text with
        | None => Py.Raise Py.ValueError
        | Some v => Py.Ok (Some v)
        end
    end
  else Py.Ok None.

Definition get_json_data (r : request) : Py.result Json.value :=
  if is_json r then request_json r
  else
    match try_load r with
    | Py.Ok (Some v) => Py.Ok v
    | Py.Ok None => Py.Ok Json.JNone
    | Py.Raise _ => Py.Ok Json.JNone
    end.

(** *** httpbin-style echo of PUT, PATCH and DELETE *)
Record response_map : Type := {
  m_args : gmap string string;
  m_data : string;
  m_files : gmap string string;
  m_form : gmap string string;
  m_headers : gmap string string;
  m_json : Json.value;
  m_origin : string;
  m_url : string
}.

(** [request.data.decode('utf-8')] *)
Definition decode_data (r : request) : Py.result string :=
  match utf8_decode (req_data r) with
  | Some text => Py.Ok text
  | None => Py.Raise Py.UnicodeDecodeError
  end.

(** Truth value of a dict. *)
Definition dict_truthy (d : gmap string string) : bool :=
  negb (bool_decide (d = ∅)).

Definition httpbin_put (r : request) : Py.result response_map :=
  match get_json_data r with
  | Py.Raise e => Py.Raise e
  | Py.Ok json_data =>
      let form_data := md_to_dict (form r) in
      match (if negb (Json.truthy json_data) && negb (dict_truthy form_data)
             then decode_data r else Py.Ok "") with
      | Py.Raise e => Py.Raise e
      | Py.Ok data =>
          Py.Ok {| m_args := md_to_dict (args r);
                   m_data := data;
                   m_files := ∅;
                   m_form := form_data;
                   m_headers := req_headers r;
                   m_json := json_data;
                   m_origin := req_remote_addr r;
                   m_url := req_url r |}
      end
  end.

Definition httpbin_patch (r : request) : Py.result response_map :=
  match get_json_data r with
  | Py.Raise e => Py.Raise e
  | Py.Ok json_data =>
      let form_data := md_to_dict (form r) in
      match (if negb (Json.truthy json_data) && negb (dict_truthy form_data)
             then decode_data r else Py.Ok "") with
      | Py.Raise e => Py.Raise e
      | Py.Ok data =>
          Py.Ok {| m_args := md_to_dict (args r);
                   m_data := data;
                   m_files := ∅;
                   m_form := form_data;
                   m_headers := req_headers r;
                   m_json := json_data;
                   m_origin := req_remote_addr r;
                   m_url := req_url r |}
      end
  end.

Definition httpbin_delete (r : request) : Py.result response_map :=
  match get_json_data r with
  | Py.Raise e => Py.Raise e
  | Py.Ok json_data =>
      let form_data := md_to_dict (form r) in
      match (if negb (Json.truthy json_data) && negb (dict_truthy form_data)
             then decode_data r else Py.Ok "") with
      | Py.Raise e => Py.Raise e
      | Py.Ok data =>
          Py.Ok {| m_args := md_to_dict (args r);
                   m_data := data;
                   m_files := ∅;
                   m_form := form_data;
                   m_headers := req_headers r;
                   m_json := json_data;
                   m_origin := req_remote_addr r;
                   m_url := req_url r |}
      end
  end.

(** *** [/response-headers] *)

(** The [for] loop over [request.args.items()]. *)
Fixpoint set_all (items : list (string * string)) (hs : Headers)
    : Py.result Headers :=
  match items with
  | [] => Py.Ok hs
  | (key, value) :: rest =>
      match headers_set key value hs with
      | Py.Ok hs' => set_all rest hs'
      | Py.Raise e => Py.Raise e
      end
  end.

Definition response_headers (r : request) : Py.result response :=
  let resp := Response_text "Headers set" 200 in
  match set_all (md_items (args r)) (headers resp) with
  | Py.Ok hs =>
      Py.Ok {| status := status resp; headers := hs; body_of := body_of resp |}
  | Py.Raise e => Py.Raise e
  end.

End handlers.

End Server.

(** ** The echo endpoints [/echo_post], [/get] and [/post] *)

Module Echo.
Import Werkzeug Server.

(** The dict that [echo_post] serialises. *)
Record echo_map : Type := {
  e_args : gmap string string;
  e_data : string;
  e_json : Json.value;
  e_headers : gmap string string
}.

(** The dict that [httpbin_get] serialises. *)
Record get_map : Type := {
  g_args : gmap string string;
  g_headers : gmap string string;
  g_origin : string;
  g_url : string
}.

Section echo.
Context `{Runtime}.

(** The body is decoded before the JSON accessor is called. *)
Definition echo_post (r : request) : Py.result echo_map :=
  let args := md_to_dict (args r) in
  match decode_data r with
  | Py.Raise e => Py.Raise e
  | Py.Ok data =>
      match get_json_data r with
      | Py.Raise e => Py.Raise e
      | Py.Ok json_value =>
          Py.Ok {| e_args := args; e_data := data; e_json := json_value;
                   e_headers := req_headers r |}
      end
  end.

Definition httpbin_get (r : request) : get_map :=
  {| g_args := md_to_dict (args r);
     g_headers := req_headers r;
     g_origin := req_remote_addr r;
     g_url := req_url r |}.

(** As [httpbin_put], but [data] is always the decoded body. *)
Definition httpbin_post (r : request) : Py.result response_map :=
  match get_json_data r with
  | Py.Raise e => Py.Raise e
  | Py.Ok json_data =>
      let form_data := md_to_dict (form r) in
      match decode_data r with
      | Py.Raise e => Py.Raise e
      | Py.Ok data =>
          Py.Ok {| m_args := md_to_dict (args r);
                   m_data := data;
                   m_files := ∅;
                   m_form := form_data;
                   m_headers := req_headers r;
                   m_json := json_data;
                   m_origin := req_remote_addr r;
                   m_url := req_url r |}
      end
  end.

End echo.

End Echo.

(** ** The upload endpoints *)

Module Upload.
Import Werkzeug Server.

(** [upload_binary] while it reads: the request stream, the bytes
    collected in [data], and the seconds slept. *)
Record reader : Type := {
  stream : Fs.file_obj;
  data : list byte;
  slept : Q
}.

Definition chunk_size : Z := 1024.

(** The [while True] loop, at most [fuel] reads; [None] when more reads
    are needed.  Each chunk is followed by a sleep of 50ms. *)
Fixpoint read_loop (fuel : nat) (st : reader) : option reader :=
  match fuel with
  | O => None
  | S k =>
      let '(chunk, f) := Fs.read (stream st) chunk_size in
      if negb (Py.bytes_truthy chunk)
      then Some {| stream := f; data := data st; slept := slept st |}
      else read_loop k {| stream := f; data := data st ++ chunk;
                          slept := (slept st + (1 # 20))%Q |}
  end.

(** The answer to a multipart upload: a plain response, or the JSON
    text of a dict of form fields. *)
Inductive reply : Type :=
| Plain (resp : response)
| JsonOf (fields : gmap string string).

(** [name in request.files]; [files] lists the file parts of the
    request, each the name of its field with the name of its file. *)
Definition has_part (name : string) (files : list (string * string)) : bool :=
  bool_decide (name ∈ files.*1).

Definition upload_file (files : list (string * string)) (r : request) : reply :=
  if negb (has_part "file" files) then Plain (Response_text "No file" 404)
  else
    let fields := md_to_dict (form r) in
    JsonOf fields.

Definition upload_multi (files : list (string * string)) (r : request) : reply :=
  let fields := md_to_dict (form r) in
  JsonOf fields.

Section upload.
Context `{Runtime}.

(** The text that [upload_binary] answers with and the seconds it has
    slept, for the request stream [body]; [None] when [fuel] reads do
    not reach the end of the stream. *)
Definition upload_binary (fuel : nat) (body : Fs.file_obj)
    : option (Py.result string * Q) :=
  match read_loop fuel {| stream := body; data := []; slept := 0%Q |} with
  | None => None
  | Some st =>
      let data_bytes := data st in
      let data_len := Z.of_nat (length data_bytes) in
      Some (if data_len <? 100
            then match utf8_decode data_bytes with
                 | Some text => Py.Ok text
                 | None => Py.Raise Py.UnicodeDecodeError
                 end
            else Py.Ok (Py.str data_len),
            slept st)
  end.

End upload.

End Upload.

(** ** A runtime for the worked examples

    ASCII text only: lower-casing of the letters A to Z, decoding of
    7-bit bodies, the JSON texts that the examples send, and the HTTP
    date of the epoch, the one time that this runtime formats. *)

Module Sample.

Definition lower_char (c : ascii) : ascii :=
  let n := nat_of_ascii c in
  if (65 <=? n)%nat && (n <=? 90)%nat then ascii_of_nat (n + 32) else c.

Fixpoint lower (s : string) : string :=
  match s with
  | EmptyString => EmptyString
  | String c r => String (lower_char c) (lower r)
  end.

Definition date (t : Q) : Py.result string :=
  if Qeq_bool t 0 then Py.Ok "Thu, 01 Jan 1970 00:00:00 GMT"
  else Py.Raise Py.OverflowError.

Definition decode (b : list byte) : option string :=
  if forallb (λ x, (Byte.to_nat x <? 128)%nat) b
  then Some (String.string_of_list_byte b) else None.

Definition loads (text : string) : option Json.value :=
  if bool_decide (text = "{}") then Some (Json.JDict [])
  else if bool_decide (text = "[]") then Some (Json.JList [])
  else if bool_decide (text = "0") then Some (Json.JInt 0)
  else if bool_decide (text = "false") then Some (Json.JBool false)
  else if bool_decide (text = "null") then Some Json.JNone
  else None.

Definition loads_bytes (b : list byte) : Py.result Json.value :=
  match decode b ≫= loads with
  | Some v => Py.Ok v
  | None => Py.Raise Py.ValueError
  end.

#[export] Instance runtime : Runtime := {|
  str_lower := lower;
  http_date := date;
  utf8_decode := decode;
  json_loads := loads;
  json_loads_bytes := loads_bytes
|}.

(** Ten bytes, 0 to 9. *)
Definition ten : list byte := [x00; x01; x02; x03; x04; x05; x06; x07; x08; x09].

Definition ten_file : Fs.file :=
  {| Fs.content := ten; Fs.st_mtime := 0; Fs.fits := I |}.
Definition three_file : Fs.file :=
  {| Fs.content := [x00; x01; x02]; Fs.st_mtime := 0; Fs.fits := I |}.
Definition empty_file : Fs.file :=
  {| Fs.content := []; Fs.st_mtime := 0; Fs.fits := I |}.

(** A directory, as [stat] reports one. *)
Definition sub_dir : Fs.dir :=
  {| Fs.d_size := 4096; Fs.d_mtime := 0; Fs.d_fits := I |}.

(** A file name with a carriage return in it. *)
Definition cr_name : string := String "a" (String "013" "b.bin").

Definition disk : gmap string Fs.node :=
  {[ "ten.bin" := Fs.Regular ten_file; "three.bin" := Fs.Regular three_file;
     "empty.bin" := Fs.Regular empty_file; "sub" := Fs.Directory sub_dir;
     cr_name := Fs.Regular ten_file ]}.

(** A GET request with the given query and, if any, [Range] header. *)
Definition get (query : list (string * string)) (range : option string)
    : Server.request :=
  {| Server.req_query := query;
     Server.req_headers :=
       match range with Some h => {[ "Range" := h ]} | None => ∅ end;
     Server.req_mimetype := "";
     Server.req_data := [];
     Server.req_form := [];
     Server.req_remote_addr := "127.0.0.1";
     Server.req_url := "" |}.

(** A request with a body of the given content type. *)
Definition send (mimetype : string) (text : string) : Server.request :=
  {| Server.req_query := [];
     Server.req_headers := ∅;
     Server.req_mimetype := mimetype;
     Server.req_data := String.list_byte_of_string text;
     Server.req_form := [];
     Server.req_remote_addr := "127.0.0.1";
     Server.req_url := "" |}.

End Sample.

(** ** Notions used in the statements and proofs *)

(** A string of decimal digits, and the number it denotes when read
    after the value [acc]. *)
Fixpoint digits (s : string) : Prop :=
  match s with
  | EmptyString => True
  | String c r => is_Some (Py.digit_of c) ∧ digits r
  end.

Fixpoint dec_value (s : string) (acc : Z) : Z :=
  match s with
  | EmptyString => acc
  | String c r => dec_value r (10 * acc + default 0 (Py.digit_of c))
  end.

(** The character [c] does not occur in [s]. *)
Fixpoint avoids (c : ascii) (s : string) : Prop :=
  match s with
  | EmptyString => True
  | String c' r => c' ≠ c ∧ avoids c r
  end.


(** What [drain] returns once the first call of [next] has been made. *)
Definition run (fs : gmap string Fs.node) (fuel : nat) (st : Server.step)
    : list (list byte) * Server.ending :=
  match st with
  | Server.Yield chunk g' =>
      let '(chunks, e) := Server.drain fs fuel g' in (chunk :: chunks, e)
  | Server.StopIteration => ([], Server.Complete)
  | Server.Raised e => ([], Server.Failed e)
  end.

(** *** Statements that the handlers are checked against *)

Section statements.
Import Werkzeug Server.
Context `{Runtime}.

(** The last [n] bytes of [data]. *)
Definition last_bytes (data : list byte) (n : Z) : list byte :=
  drop (length data - Z.to_nat n) data.

(** The handler answers, and the body of its answer is delivered as
    [bytes]: iterating over it ends by exhaustion, and the chunks
    concatenate to [bytes]. *)
Definition delivers (fs : gmap string Fs.node) (answer : Py.result response)
    (bytes : list byte) : Prop :=
  ∃ resp g fuel chunks,
    answer = Py.Ok resp
    ∧ body_of resp = Streamed g
    ∧ drain fs fuel g = (chunks, Complete)
    ∧ concat chunks = bytes.

(** The file can be announced in the headers of a response: its name
    holds no line break, and its modification time formats to a date,
    which holds none. *)
Definition servable (filename : string) (node : Fs.node) : Prop :=
  has_newline filename = false
  ∧ ∃ date, http_date (Fs.getmtime node) = Py.Ok date
      ∧ has_newline date = false.


(** [Range: bytes=-N] resolves to the last [N] bytes and returns
    them. *)
Definition suffix_rule (fs : gmap string Fs.node) (filename : string)
    (N : Z) : Prop :=
  ∀ file r,
    fs !! filename = Some (Fs.Regular file) →
    req_headers r !! "Range" = Some ("bytes=-" +:+ Py.str N) →
    let l := resolve_range (Fs.getsize file) (req_headers r !! "Range") in
    l_start_byte l = Fs.getsize file - N
    ∧ l_end_byte l = Fs.getsize file - 1
    ∧ delivers fs (serve_file fs filename r) (last_bytes (Fs.content file) N).


(** Every pair of the query string is a response header, and a name
    occurs among the headers as often as in the query string. *)
Definition echoes_every_pair (r : request) : Prop :=
  ∃ resp,
    response_headers r = Py.Ok resp
    ∧ (∀ kv, kv ∈ req_query r → kv ∈ headers resp)
    ∧ (∀ k, k ∈ (req_query r).*1 →
         length (filter (λ h, h.1 = k) (headers resp))
         = length (filter (λ p, p.1 = k) (req_query r))).

(** The headers of [hs] named [k], names compared without case. *)
Definition named (k : string) (hs : Headers) : Headers :=
  filter (λ h, same_name h.1 k = true) hs.

(** The last of [items] named [k]. *)
Fixpoint last_named (k : string) (items : list (string * string))
    : option (string * string) :=
  match items with
  | [] => None
  | kv :: rest =>
      match last_named k rest with
      | Some kv' => Some kv'
      | None => if same_name kv.1 k then Some kv else None
      end
  end.

End statements.

(** The pairs of [q] whose key is new, the keys [seen] being known. *)
Fixpoint firsts (seen : list string) (q : list (string * string))
    : list (string * string) :=
  match q with
  | [] => []
  | kv :: rest =>
      if decide (kv.1 ∈ seen) then firsts seen rest
      else kv :: firsts (seen ++ [kv.1]) rest
  end.

(** * Properties *)

(** ** Strings and numerals *)

(** The built-ins on sample inputs, as the interpreter evaluates them. *)
Example int_samples :
  Py.int_ "5" = Py.Ok 5 /\ Py.int_ " +1_0 " = Py.Ok 10 /\
  Py.int_ "007" = Py.Ok 7 /\ Py.int_ "abc" = Py.Raise Py.ValueError /\
  Py.int_ "" = Py.Raise Py.ValueError /\ Py.int_ "1__0" = Py.Raise Py.ValueError /\
  Py.int_ "1_" = Py.Raise Py.ValueError /\ Py.int_ "_1" = Py.Raise Py.ValueError /\
  Py.int_ "+ 5" = Py.Raise Py.ValueError /\ Py.int_ "5 5" = Py.Raise Py.ValueError.
Proof. repeat split. Qed.

Example int_space_samples :
  Py.int_ (String "133" "5") = Py.Ok 5 /\ Py.int_ (String "160" "5") = Py.Ok 5 /\
  Py.int_ (String "028" "5") = Py.Raise Py.ValueError /\
  Py.int_ (String "5" (String "010" "")) = Py.Ok 5 /\
  Py.int_ (String "5" (String "000" "")) = Py.Raise Py.ValueError /\
  Py.int_ "-5" = Py.Ok (-5) /\ Py.int_ "1_2_3" = Py.Ok 123 /\
  Py.int_ "0x10" = Py.Raise Py.ValueError.
Proof. repeat split. Qed.

Example str_samples :
  Py.str 0 = "0" /\ Py.str 9 = "9" /\ Py.str 10 = "10" /\
  Py.str 65536 = "65536" /\ Py.str (-10) = "-10" /\ Py.str 1000000 = "1000000".
Proof. repeat split. Qed.

Example replace_samples :
  Py.replace "bytes=" "" "bytes=5-7" = "5-7" /\
  Py.replace "bytes=" "" "bytes=bytes=5-7" = "5-7" /\
  Py.replace "bytes=" "" "bybytes=tes=5" = "bytes=5" /\
  Py.replace "bytes=" "" "xyz" = "xyz".
Proof. repeat split. Qed.

Example split_samples :
  Py.split "-" "a--b" = ["a"; ""; "b"] /\ Py.split "-" "" = [""] /\
  Py.split "-" "-" = [""; ""] /\ Py.split "-" "5-7" = ["5"; "7"].
Proof. repeat split. Qed.

Lemma str_app_cons (x : ascii) (a b : string) :
  String x a +:+ b = String x (a +:+ b).
Proof. reflexivity. Qed.

Lemma str_app_nil_l (a : string) : "" +:+ a = a.
Proof. reflexivity. Qed.

Lemma str_app_char (x : ascii) (a : string) : String x "" +:+ a = String x a.
Proof. reflexivity. Qed.

Lemma str_app_assoc (a b c : string) : (a +:+ b) +:+ c = a +:+ (b +:+ c).
Proof.
  induction a as [|x a IH]; [done|]. rewrite !str_app_cons. by rewrite IH.
Qed.

Lemma digit_of_digit_char (d : Z) :
  0 ≤ d < 10 → Py.digit_of (Py.digit_char d) = Some d.
Proof.
  intros Hd.
  assert (d = 0 ∨ d = 1 ∨ d = 2 ∨ d = 3 ∨ d = 4 ∨ d = 5 ∨ d = 6 ∨ d = 7
          ∨ d = 8 ∨ d = 9) as Hc by lia.
  repeat (destruct Hc as [-> | Hc]; [reflexivity|]). by subst.
Qed.

Lemma digits_app (s t : string) : digits s → digits t → digits (s +:+ t).
Proof.
  induction s as [|c s IH]; [done|]. rewrite str_app_cons. cbn.
  intros [? ?] ?. split; auto.
Qed.

Lemma dec_value_app (s t : string) (acc : Z) :
  dec_value (s +:+ t) acc = dec_value t (dec_value s acc).
Proof.
  revert acc. induction s as [|c s IH]; intros acc; [done|].
  rewrite str_app_cons. cbn. apply IH.
Qed.

Lemma str_go_acc (k : nat) (n : Z) (acc : string) :
  Py.str_go k n acc = Py.str_go k n "" +:+ acc.
Proof.
  revert n acc. induction k as [|k IH]; intros n acc; cbn; [done|].
  destruct (n <? 10); [done|].
  rewrite (IH _ (String _ acc)), (IH _ (String _ "")).
  by rewrite str_app_assoc.
Qed.

Lemma str_go_digits (k : nat) (n : Z) (acc : string) :
  0 ≤ n → digits acc → digits (Py.str_go k n acc).
Proof.
  revert n acc. induction k as [|k IH]; intros n acc Hn Hacc; cbn.
  - split; [|done]. rewrite digit_of_digit_char; [done|].
    apply Z.mod_pos_bound; lia.
  - assert (digits (String (Py.digit_char (n mod 10)) acc)) as Hd.
    { split; [|done]. rewrite digit_of_digit_char; [done|].
      apply Z.mod_pos_bound; lia. }
    destruct (n <? 10); [done|]. apply IH; [|done].
    apply Z.div_pos; lia.
Qed.

Lemma str_go_value (k : nat) (n : Z) :
  0 ≤ n < 10 ^ Z.of_nat (S k) → dec_value (Py.str_go k n "") 0 = n.
Proof.
  revert n. induction k as [|k IH]; intros n Hn.
  - cbn. rewrite digit_of_digit_char by (apply Z.mod_pos_bound; lia).
    cbn. change (10 ^ Z.of_nat 1) with 10 in Hn. rewrite Z.mod_small; lia.
  - cbn [Py.str_go]. destruct (n <? 10) eqn:Hlt.
    + cbn. rewrite digit_of_digit_char by (apply Z.mod_pos_bound; lia).
      cbn. apply Z.ltb_lt in Hlt. rewrite Z.mod_small; lia.
    + rewrite str_go_acc, dec_value_app, IH.
      * cbn. rewrite digit_of_digit_char by (apply Z.mod_pos_bound; lia).
        cbn. pose proof (Z.div_mod n 10). lia.
      * split; [apply Z.div_pos; lia|].
        apply Z.div_lt_upper_bound; [lia|].
        rewrite <- Z.pow_succ_r by lia.
        replace (Z.succ (Z.of_nat (S k))) with (Z.of_nat (S (S k))) by lia.
        lia.
Qed.

Lemma log2_fuel (n : Z) : 0 ≤ n → n < 10 ^ Z.of_nat (S (Z.to_nat (Z.log2 n))).
Proof.
  intros Hn. destruct (decide (n = 0)) as [->|Hne]; [done|].
  pose proof (Z.log2_nonneg n) as Hl.
  replace (Z.of_nat (S (Z.to_nat (Z.log2 n)))) with (Z.succ (Z.log2 n)) by lia.
  apply Z.lt_le_trans with (2 ^ Z.succ (Z.log2 n)).
  - apply Z.log2_spec. lia.
  - apply Z.pow_le_mono_l. lia.
Qed.

Lemma str_nat_digits (n : Z) : 0 ≤ n → digits (Py.str_nat n).
Proof. intros ?. by apply str_go_digits. Qed.

Lemma str_nat_value (n : Z) : 0 ≤ n → dec_value (Py.str_nat n) 0 = n.
Proof. intros ?. apply str_go_value. split; [done|]. by apply log2_fuel. Qed.

Lemma str_go_nonempty (k : nat) (n : Z) (acc : string) :
  ∃ c r, Py.str_go k n acc = String c r.
Proof.
  revert n acc. induction k as [|k IH]; intros n acc; cbn; [eauto|].
  destruct (n <? 10); eauto.
Qed.

Lemma str_nonneg (n : Z) : 0 ≤ n → Py.str n = Py.str_nat n.
Proof. intros ?. unfold Py.str. by rewrite (proj2 (Z.ltb_ge n 0)). Qed.

(** [int] reads a string of digits as the number it denotes. *)
Lemma scan_digits_digits (s : string) (acc : Z) :
  digits s → Py.scan_digits s acc = Some (dec_value s acc).
Proof.
  revert acc. induction s as [|c s IH]; intros acc; cbn; [done|].
  intros [[d Hd] Hs]. rewrite Hd. cbn. by apply IH.
Qed.

(** The digits that [str] writes are as many as the number needs. *)
Lemma count_digits_str_go (k : nat) (n m : Z) (acc : string) :
  0 ≤ n < 10 ^ m → 1 ≤ m →
  Py.count_digits (Py.str_go k n acc) ≤ m + Py.count_digits acc.
Proof.
  revert n m acc. induction k as [|k IH]; intros n m acc Hn Hm;
    cbn [Py.str_go].
  - cbn [Py.count_digits].
    rewrite digit_of_digit_char by (apply Z.mod_pos_bound; lia). lia.
  - destruct (n <? 10) eqn:Hlt.
    + cbn [Py.count_digits].
      rewrite digit_of_digit_char by (apply Z.mod_pos_bound; lia). lia.
    + apply Z.ltb_ge in Hlt.
      assert (2 ≤ m) as Hm2.
      { destruct (decide (m = 1)) as [->|]; [|lia].
        change (10 ^ 1) with 10 in Hn. lia. }
      specialize (IH (n / 10) (m - 1)
                    (String (Py.digit_char (n mod 10)) acc)).
      cbn [Py.count_digits] in IH.
      rewrite digit_of_digit_char in IH by (apply Z.mod_pos_bound; lia).
      assert (0 ≤ n / 10 < 10 ^ (m - 1)) as Hdiv.
      { split; [apply Z.div_pos; lia|].
        apply Z.div_lt_upper_bound; [lia|].
        rewrite <- Z.pow_succ_r by lia.
        replace (Z.succ (m - 1)) with m by lia. lia. }
      specialize (IH Hdiv). lia.
Qed.

Lemma count_digits_str_nat (n : Z) :
  0 ≤ n < 10 ^ Py.int_max_str_digits →
  Py.count_digits (Py.str_nat n) ≤ Py.int_max_str_digits.
Proof.
  intros Hn. unfold Py.str_nat.
  pose proof (count_digits_str_go (Z.to_nat (Z.log2 n)) n
                Py.int_max_str_digits "" Hn) as Hc.
  cbn [Py.count_digits] in Hc. unfold Py.int_max_str_digits in *. lia.
Qed.

Lemma int_digits (s : string) :
  digits s → s ≠ "" → Py.count_digits s ≤ Py.int_max_str_digits →
  Py.int_ s = Py.Ok (dec_value s 0).
Proof.
  destruct s as [|c s]; [done|]. intros [[d Hd] Hs] _ Hcount.
  assert (Py.int_unsigned (String c s) = Some (dec_value (String c s) 0)) as Hu.
  { cbn. rewrite Hd. cbn. by apply scan_digits_digits. }
  unfold Py.int_.
  assert (Py.skip_space (String c s) = String c s) as ->.
  { cbn [Py.skip_space].
    destruct c as [[] [] [] [] [] [] [] []];
      try discriminate Hd; reflexivity. }
  assert (match String c s with
          | String "+" r => Py.int_unsigned r
          | String "-" r => Z.opp <$> Py.int_unsigned r
          | t => Py.int_unsigned t
          end = Py.int_unsigned (String c s)) as ->.
  { destruct c as [[] [] [] [] [] [] [] []];
      try discriminate Hd; reflexivity. }
  rewrite Hu. by rewrite (proj2 (Z.ltb_ge _ _)).
Qed.

(** Round trip: [int] reads back what [str] writes for a natural
    number that [int] accepts the numeral of. *)
Lemma int_str_nat (n : Z) :
  0 ≤ n < 10 ^ Py.int_max_str_digits → Py.int_ (Py.str_nat n) = Py.Ok n.
Proof.
  intros Hn. rewrite int_digits.
  - by rewrite str_nat_value by lia.
  - apply str_nat_digits. lia.
  - destruct (str_go_nonempty (Z.to_nat (Z.log2 n)) n "") as (c & r & Hc).
    unfold Py.str_nat. by rewrite Hc.
  - by apply count_digits_str_nat.
Qed.

Lemma int_str (n : Z) :
  0 ≤ n < 10 ^ Py.int_max_str_digits → Py.int_ (Py.str n) = Py.Ok n.
Proof. intros Hn. rewrite str_nonneg by lia. by apply int_str_nat. Qed.

(** An [off_t] has far fewer digits than [int] accepts. *)
Lemma off_t_max_readable : Fs.off_t_max < 10 ^ Py.int_max_str_digits.
Proof. by vm_compute. Qed.

Lemma digits_avoids (c : ascii) (s : string) :
  Py.digit_of c = None → digits s → avoids c s.
Proof.
  intros Hc. induction s as [|c' s IH]; cbn; [done|].
  intros [[d Hd] Hs]. split; [|by apply IH]. intros ->. congruence.
Qed.

Lemma avoids_app (c : ascii) (s t : string) :
  avoids c s → avoids c t → avoids c (s +:+ t).
Proof.
  induction s as [|c' s IH]; [done|]. rewrite str_app_cons. cbn.
  intros [? ?] ?. split; auto.
Qed.

Lemma prefix_head_ne (a c : ascii) (p s : string) :
  c ≠ a → String.prefix (String a p) (String c s) = false.
Proof. intros Hne. cbn [String.prefix]. by destruct (ascii_dec a c). Qed.

(** [replace] leaves a string without the letter b as it is, and removes
    a leading [bytes=]. *)
Lemma replace_avoids (s : string) :
  avoids "b" s → Py.replace "bytes=" "" s = s.
Proof.
  unfold Py.replace. induction s as [|c s IH]; [done|].
  intros [Hc Hs]. cbn [Py.replace_go].
  rewrite prefix_head_ne by done. by rewrite IH.
Qed.

Lemma replace_avoids_app (d t : string) :
  avoids "b" d →
  Py.replace "bytes=" "" (d +:+ t) = d +:+ Py.replace "bytes=" "" t.
Proof.
  unfold Py.replace. induction d as [|c d IH]; [done|].
  intros [Hc Hd]. rewrite !str_app_cons. cbn [Py.replace_go].
  rewrite prefix_head_ne by done. by rewrite IH.
Qed.

Lemma replace_bytes_prefix (t : string) :
  Py.replace "bytes=" "" ("bytes=" +:+ t) = Py.replace "bytes=" "" t.
Proof. destruct t; reflexivity. Qed.

Lemma split_avoids (sep : ascii) (s : string) :
  avoids sep s → Py.split sep s = [s].
Proof.
  induction s as [|c s IH]; [done|]. intros [Hc Hs]. cbn.
  rewrite (proj2 (Ascii.eqb_neq c sep)) by done. by rewrite IH.
Qed.

Lemma split_app (sep : ascii) (a b : string) :
  avoids sep a → Py.split sep (a +:+ String sep b) = a :: Py.split sep b.
Proof.
  induction a as [|c a IH].
  - intros _. rewrite str_app_nil_l. cbn. by rewrite Ascii.eqb_refl.
  - intros [Hc Ha]. rewrite str_app_cons. cbn.
    rewrite (proj2 (Ascii.eqb_neq c sep)) by done. by rewrite IH.
Qed.

Lemma str_nat_head (n : Z) : ∃ c r, Py.str_nat n = String c r.
Proof. apply str_go_nonempty. Qed.

(** ** Range resolution *)

Section range.
Import Server.

Ltac run_range :=
  unfold parse_range, mbind, M_bind, mret, M_ret, lift, get_end_byte,
    set_start_byte, set_end_byte, set_status_code.

(** No header: the whole file, status 200. *)
Lemma resolve_none (total : Z) :
  resolve_range total None
  = {| l_start_byte := 0; l_end_byte := total - 1; l_status_code := 200 |}.
Proof. reflexivity. Qed.

(** [bytes=A-B]: from [A] to [B], the end capped at the last byte. *)
Lemma resolve_explicit (total A B : Z) :
  0 ≤ A < 10 ^ Py.int_max_str_digits →
  0 ≤ B < 10 ^ Py.int_max_str_digits →
  resolve_range total (Some ("bytes=" +:+ Py.str A +:+ "-" +:+ Py.str B))
  = {| l_start_byte := A;
       l_end_byte := if total <=? B then total - 1 else B;
       l_status_code := 206 |}.
Proof.
  intros [HA HA'] [HB HB']. rewrite !str_nonneg by done.
  pose proof (str_nat_digits A HA) as HdA.
  pose proof (str_nat_digits B HB) as HdB.
  pose proof (int_str_nat A (conj HA HA')) as HvA.
  pose proof (int_str_nat B (conj HB HB')) as HvB.
  destruct (str_nat_head A) as (ca & ra & HeA).
  destruct (str_nat_head B) as (cb & rb & HeB).
  unfold resolve_range. change (Py.str_truthy _) with true at 1. cbv iota.
  run_range. rewrite str_app_char.
  rewrite replace_bytes_prefix, replace_avoids.
  2:{ apply avoids_app; [by apply digits_avoids|].
      split; [done|]. by apply digits_avoids. }
  rewrite split_app by (by apply digits_avoids).
  rewrite split_avoids by (by apply digits_avoids).
  unfold item. cbn [lookup list_lookup length].
  rewrite HvA, HvB.
  rewrite HeA, HeB. change (1 <? Z.of_nat 2) with true.
  rewrite (bool_decide_eq_false_2 (String ca ra = "")) by discriminate.
  cbn -[Z.leb]. by destruct (total <=? B).
Qed.

(** [bytes=-N]: the suffix arithmetic, whatever the size of the file. *)
Lemma resolve_suffix (total N : Z) :
  0 ≤ N < 10 ^ Py.int_max_str_digits →
  resolve_range total (Some ("bytes=-" +:+ Py.str N))
  = {| l_start_byte := total - N; l_end_byte := total - 1;
       l_status_code := 206 |}.
Proof.
  intros [HN HN']. rewrite str_nonneg by done.
  pose proof (str_nat_digits N HN) as Hd.
  pose proof (int_str_nat N (conj HN HN')) as Hv.
  destruct (str_nat_head N) as (c & r & He).
  unfold resolve_range. change (Py.str_truthy _) with true at 1. cbv iota.
  run_range.
  change ("bytes=-" +:+ Py.str_nat N)
    with ("bytes=" +:+ String "-" (Py.str_nat N)).
  rewrite replace_bytes_prefix, replace_avoids.
  2:{ split; [done|]. by apply digits_avoids. }
  rewrite <- (str_app_nil_l (String "-" _)), split_app by done.
  rewrite split_avoids by (by apply digits_avoids).
  unfold item. cbn [lookup list_lookup length].
  rewrite Hv.
  rewrite He. change (1 <? Z.of_nat 2) with true. reflexivity.
Qed.

(** [bytes=A-t] where [t] is not a number: the start has been assigned
    when [int(t)] raises, and stays. *)
Lemma resolve_malformed_end (total A : Z) (t : string) :
  0 ≤ A < 10 ^ Py.int_max_str_digits → t ≠ "" → avoids "-" t →
  Py.replace "bytes=" "" t = t →
  Py.int_ t = Py.Raise Py.ValueError →
  resolve_range total (Some ("bytes=" +:+ Py.str A +:+ "-" +:+ t))
  = {| l_start_byte := A; l_end_byte := total - 1; l_status_code := 200 |}.
Proof.
  intros [HA HA'] Ht Hdash Hrep Hint. rewrite str_nonneg by done.
  pose proof (str_nat_digits A HA) as HdA.
  pose proof (int_str_nat A (conj HA HA')) as HvA.
  destruct (str_nat_head A) as (ca & ra & HeA).
  destruct t as [|ct rt]; [done|].
  unfold resolve_range. change (Py.str_truthy _) with true at 1. cbv iota.
  run_range. rewrite str_app_char.
  rewrite replace_bytes_prefix, replace_avoids_app by (by apply digits_avoids).
  change (String "-" (String ct rt)) with ("-" +:+ String ct rt).
  rewrite (replace_avoids_app "-") by done. rewrite Hrep, str_app_char.
  rewrite split_app by (by apply digits_avoids).
  rewrite split_avoids by done.
  unfold item. cbn [lookup list_lookup length].
  rewrite Hint, HvA.
  rewrite HeA. change (1 <? Z.of_nat 2) with true.
  rewrite (bool_decide_eq_false_2 (String ca ra = "")) by discriminate.
  reflexivity.
Qed.

(** Whatever the header, the resolved end is at most the last byte and
    the status is 200 or 206. *)
Lemma parse_range_end (total : Z) (h : string) (init : locals) :
  l_end_byte init ≤ total - 1 →
  l_end_byte (parse_range total h init).2 ≤ total - 1.
Proof.
  intros Hinit. run_range.
  repeat (case_match; simplify_eq/=); try lia;
    repeat match goal with
    | H : (_ <=? _) = false |- _ => apply Z.leb_gt in H
    end; cbn in *; lia.
Qed.

Lemma resolve_range_end (total : Z) (h : option string) :
  l_end_byte (resolve_range total h) ≤ total - 1.
Proof.
  unfold resolve_range. destruct h as [h|]; [|cbn; lia].
  destruct (Py.str_truthy h); [|cbn; lia].
  apply parse_range_end. cbn. lia.
Qed.

(** When the status stays 200 the end is the default one. *)
Lemma parse_range_unparsed (total : Z) (h : string) (init : locals) :
  l_end_byte init = total - 1 → l_status_code init = 200 →
  l_status_code (parse_range total h init).2 = 200 →
  l_end_byte (parse_range total h init).2 = total - 1.
Proof.
  intros Hend Hinit. run_range.
  repeat (case_match; simplify_eq/=); try done; try lia.
Qed.

(** After the range handling either the range is empty, which is
    answered with 416, or [start <= end < total]. *)
Lemma resolve_range_dichotomy (total : Z) (h : option string) :
  let l := resolve_range total h in
  l_end_byte l < l_start_byte l
  ∨ (l_start_byte l ≤ l_end_byte l < total).
Proof.
  intros l. pose proof (resolve_range_end total h). subst l. lia.
Qed.
(** The range handling leaves the status at 200 or sets it to 206. *)
Lemma parse_range_status (total : Z) (h : string) (init : locals) :
  l_status_code (parse_range total h init).2 = l_status_code init
  ∨ l_status_code (parse_range total h init).2 = 206.
Proof.
  run_range. repeat (case_match; simplify_eq/=); auto.
Qed.

Lemma resolve_range_status (total : Z) (h : option string) :
  l_status_code (resolve_range total h) = 200
  ∨ l_status_code (resolve_range total h) = 206.
Proof.
  unfold resolve_range. destruct h as [h|]; [|by left].
  destruct (Py.str_truthy h); [|by left].
  destruct (parse_range_status total h
              {| l_start_byte := 0; l_end_byte := total - 1;
                 l_status_code := 200 |}) as [->| ->]; auto.
Qed.


End range.

(** ** The chunk generator *)

Section generator.
Import Server.

Lemma drain_S (fs : gmap string Fs.node) (k : nat) (g : generator) :
  drain fs (S k) g = run fs k (next fs g).
Proof. reflexivity. Qed.

(** One more piece of a prefix: the bytes read first, then the rest. *)
Lemma take_chunk_rest (rest : list byte) (m b : nat) :
  (m ≤ b)%nat →
  take m rest
    ++ take (b - length (take m rest)) (drop (length (take m rest)) rest)
  = take b rest.
Proof.
  intros Hm. rewrite length_take.
  destruct (decide (m ≤ length rest)%nat) as [Hle|Hgt].
  - rewrite Nat.min_l by done. rewrite take_take_drop. f_equal. lia.
  - rewrite Nat.min_r by lia. rewrite drop_all, take_nil, app_nil_r.
    rewrite !take_ge by lia. done.
Qed.

(** The loop, entered with [b] bytes to send at position [f_pos f],
    runs to completion within [b] further resumptions; what it yields
    is the next [b] bytes of the file, or what is left of it, in
    non-empty chunks no larger than the chunk size. *)
Lemma run_loop (fs : gmap string Fs.node) (k : nat) (env : closure)
    (f : Fs.file_obj) (b : Z) (d s : Q) :
  0 < chunk_size env → 0 ≤ Fs.f_pos f → (Z.to_nat b < k)%nat →
  ∃ chunks,
    run fs k (loop env f b d s) = (chunks, Complete)
    ∧ concat chunks
      = take (Z.to_nat b) (drop (Z.to_nat (Fs.f_pos f)) (Fs.f_content f))
    ∧ Forall (λ c, (0 < length c)%nat ∧ Z.of_nat (length c) ≤ chunk_size env)
        chunks.
Proof.
  intros Hcs. revert f b s.
  induction k as [|k IH]; intros f b s Hpos Hk; [lia|].
  unfold loop. destruct (0 <? b) eqn:Hb.
  2:{ apply Z.ltb_ge in Hb. exists []. cbn.
      replace (Z.to_nat b) with 0%nat by lia. by rewrite take_0. }
  apply Z.ltb_lt in Hb. unfold Fs.read.
  set (rest := drop (Z.to_nat (Fs.f_pos f)) (Fs.f_content f)).
  set (m := Z.min (chunk_size env) b).
  assert (0 < m) as Hm by (subst m; lia).
  rewrite (proj2 (Z.ltb_ge m 0)) by lia.
  destruct (take (Z.to_nat m) rest) as [|c0 chunk] eqn:Hchunk.
  { cbn. exists []. repeat split; [|done].
    apply take_nil_inv in Hchunk as [?| ->]; [lia|]. by rewrite take_nil. }
  cbn [Py.bytes_truthy negb run]. rewrite drain_S. cbn [next].
  set (f' := {| Fs.f_content := Fs.f_content f;
                Fs.f_pos := Fs.f_pos f + Z.of_nat (length (c0 :: chunk)) |}).
  destruct (IH f' (b - Z.of_nat (length (c0 :: chunk)))
              (if Qpositive d then (s + d)%Q else s))
    as (chunks & Hrun & Hcat & Hall).
  { subst f'. cbn. lia. }
  { cbn [length]. lia. }
  rewrite Hrun. exists ((c0 :: chunk) :: chunks). split; [done|]. split.
  - cbn [concat]. rewrite Hcat. subst f'. cbn [Fs.f_pos Fs.f_content].
    replace (Z.to_nat (Fs.f_pos f + Z.of_nat (length (c0 :: chunk))))
      with (Z.to_nat (Fs.f_pos f) + length (c0 :: chunk))%nat by lia.
    rewrite <- drop_drop. fold rest.
    replace (Z.to_nat (b - Z.of_nat (length (c0 :: chunk))))
      with (Z.to_nat b - length (c0 :: chunk))%nat by lia.
    rewrite <- Hchunk. apply take_chunk_rest. lia.
  - constructor; [|done]. split; [cbn; lia|].
    rewrite <- Hchunk, length_take. lia.
Qed.

(** However far the iteration has got, the chunks yielded so far are no
    larger than the chunk size and hold at most [b] bytes in all. *)
Lemma run_loop_bounds (fs : gmap string Fs.node) (k : nat) (env : closure)
    (f : Fs.file_obj) (b : Z) (d s : Q) (chunks : list (list byte))
    (e : ending) :
  0 < chunk_size env →
  run fs k (loop env f b d s) = (chunks, e) →
  Forall (λ c, Z.of_nat (length c) ≤ chunk_size env) chunks
  ∧ Z.of_nat (length (concat chunks)) ≤ Z.max 0 b.
Proof.
  intros Hcs. revert f b s chunks e.
  induction k as [|k IH]; intros f b s chunks e; unfold loop;
    (destruct (0 <? b) eqn:Hb;
     [apply Z.ltb_lt in Hb|intros [= <- <-]; split; [done|cbn; lia]]);
    unfold Fs.read;
    set (rest := drop (Z.to_nat (Fs.f_pos f)) (Fs.f_content f));
    set (m := Z.min (chunk_size env) b);
    rewrite (proj2 (Z.ltb_ge m 0)) by (subst m; lia);
    (destruct (take (Z.to_nat m) rest) as [|c0 chunk] eqn:Hchunk;
     [intros [= <- <-]; split; [done|cbn; lia]|]);
    assert (Z.of_nat (length (c0 :: chunk)) ≤ m) as Hlen
      by (rewrite <- Hchunk, length_take; lia);
    cbn [Py.bytes_truthy negb run].
  - cbn [drain]. intros [= <- <-]. split.
    + constructor; [subst m; lia|done].
    + cbn [concat]. rewrite app_nil_r. subst m. lia.
  - rewrite drain_S. cbn [next].
    destruct (run fs k _) as [chunks' e'] eqn:Hrun. intros [= <- <-].
    apply IH in Hrun as [Hall Htotal]. split.
    + constructor; [subst m; lia|done].
    + cbn [concat]. rewrite length_app. subst m. lia.
Qed.
End generator.

(** ** [serve_file] *)

Section serve_file.
Import Werkzeug Server.
Context `{Runtime}.

(** Sizes are those of an [off_t]. *)
Lemma getsize_bounds (node : Fs.node) :
  0 ≤ Fs.getsize node ≤ Fs.off_t_max.
Proof.
  destruct node as [file|d]; cbn [Fs.getsize].
  - pose proof (Fs.fits file) as Hfits.
    apply Is_true_true, Z.leb_le in Hfits. lia.
  - pose proof (Fs.d_fits d) as Hfits.
    apply Is_true_true, andb_true_iff in Hfits as [?%Z.leb_le ?%Z.leb_le].
    lia.
Qed.

Lemma getsize_readable (node : Fs.node) :
  0 ≤ Fs.getsize node < 10 ^ Py.int_max_str_digits.
Proof.
  pose proof (getsize_bounds node). pose proof off_t_max_readable. lia.
Qed.

(** Line breaks in the pieces that header values are made of. *)
Lemma has_newline_app (a b : string) :
  has_newline (a +:+ b) = has_newline a || has_newline b.
Proof.
  induction a as [|c a IH]; [done|]. rewrite str_app_cons. cbn.
  rewrite IH. by rewrite !orb_assoc.
Qed.

Lemma has_newline_digits (s : string) : digits s → has_newline s = false.
Proof.
  induction s as [|c s IH]; [done|]. intros [[d Hd] Hs]. cbn.
  rewrite (IH Hs).
  destruct c as [[] [] [] [] [] [] [] []]; try discriminate Hd; reflexivity.
Qed.

Lemma has_newline_str (n : Z) : has_newline (Py.str n) = false.
Proof.
  unfold Py.str. destruct (n <? 0) eqn:Hn.
  - apply Z.ltb_lt in Hn. cbn.
    apply has_newline_digits, str_nat_digits. lia.
  - apply Z.ltb_ge in Hn. by apply has_newline_digits, str_nat_digits.
Qed.

(** [Headers(d)] succeeds exactly when no value of [d] holds a line
    break. *)
Lemma headers_of_dict_ok (d : gmap string string) :
  map_Forall (λ _ v, has_newline v = false) d →
  headers_of_dict d = Py.Ok (map_to_list d).
Proof.
  intros Hall. unfold headers_of_dict.
  destruct (existsb _ _) eqn:Hex; [|done].
  apply existsb_exists in Hex as ([k v] & Hin & Hnl).
  apply list_elem_of_In, elem_of_map_to_list in Hin.
  cbn in Hnl. by rewrite (Hall k v Hin) in Hnl.
Qed.

Lemma headers_of_dict_raise (d : gmap string string) (k v : string) :
  d !! k = Some v → has_newline v = true →
  headers_of_dict d = Py.Raise Py.ValueError.
Proof.
  intros Hk Hv. unfold headers_of_dict.
  destruct (existsb _ _) eqn:Hex; [done|].
  assert (existsb (λ kv, has_newline kv.2) (map_to_list d) = true) as Ht;
    [|congruence].
  apply existsb_exists. exists (k, v).
  split; [by apply list_elem_of_In, elem_of_map_to_list|done].
Qed.

(** What [serve_file] returns for a path that exists and a range that
    is not empty: status, generator, and the headers, name by name. *)
Lemma serve_file_inv (fs : gmap string Fs.node) (filename : string)
    (node : Fs.node) (r : request) (resp : response) :
  fs !! filename = Some node →
  let l := resolve_range (Fs.getsize node) (req_headers r !! "Range") in
  l_start_byte l ≤ l_end_byte l →
  serve_file fs filename r = Py.Ok resp →
  ∃ hdrs date,
    http_date (Fs.getmtime node) = Py.Ok date
    ∧ status resp = l_status_code l
    ∧ body_of resp
      = Streamed (Created {| file_path := filename;
                             start_byte := l_start_byte l;
                             end_byte := l_end_byte l;
                             content_length := l_end_byte l - l_start_byte l + 1;
                             chunk_size := 65536;
                             target_duration := default 0%Q (FILE_DELAYS !! filename) |})
    ∧ headers resp = map_to_list hdrs
    ∧ hdrs !! "Content-Length"
      = (if bool_decide (md_get (args r) "no_content_length" = Some "true")
         then None else Some (Py.str (l_end_byte l - l_start_byte l + 1)))
    ∧ hdrs !! "Content-Range"
      = (if l_status_code l =? 206
         then Some ("bytes " +:+ Py.str (l_start_byte l) +:+ "-"
                             +:+ Py.str (l_end_byte l) +:+ "/"
                             +:+ Py.str (Fs.getsize node))
         else None)
    ∧ hdrs !! "Accept-Ranges" = Some "bytes"
    ∧ hdrs !! "ETag"
      = Some (dquote +:+ Py.str (Py.int_of_float (Fs.getmtime node)) +:+ "-"
                     +:+ Py.str (Fs.getsize node) +:+ dquote)
    ∧ hdrs !! "Last-Modified" = Some date
    ∧ hdrs !! "Content-Disposition"
      = Some ("attachment; filename=" +:+ filename)
    ∧ hdrs !! "Content-Type"
      = Some (if Py.endswith (str_lower filename) ".zip"
              then "application/zip" else "application/octet-stream")
    ∧ map_Forall (λ _ v, has_newline v = false) hdrs.
Proof.
  intros Hfile l Hle. unfold serve_file.
  rewrite Hfile. cbv zeta. fold l.
  rewrite (proj2 (Z.ltb_ge (l_end_byte l) (l_start_byte l))) by lia.
  destruct (http_date _) as [date|]; [|done].
  unfold Response_stream, headers_of_dict.
  destruct (existsb _ _) eqn:Hex; [done|]. intros [= <-].
  match type of Hex with existsb _ (map_to_list ?d) = _ =>
    set (hdrs := d) in *
  end.
  exists hdrs, date. split; [done|].
  cbn [status headers body_of]. do 3 (split; [reflexivity|]).
  repeat match goal with |- _ ∧ _ => split end.
  8:{ intros k v Hk. destruct (has_newline v) eqn:Hv; [|done].
      assert (existsb (λ kv : string * string, has_newline kv.2)
                (map_to_list hdrs) = true) as Ht; [|by rewrite Ht in Hex].
      apply existsb_exists. exists (k, v).
      split; [apply list_elem_of_In, elem_of_map_to_list, Hk|done]. }
  all: clear Hex; subst hdrs;
    destruct (Py.endswith _ _), (l_status_code l =? 206), (bool_decide _);
    cbn [negb]; by simplify_map_eq.
Qed.

(** For a file that can be announced, the response is built. *)
Lemma serve_file_returns (fs : gmap string Fs.node) (filename : string)
    (node : Fs.node) (r : request) :
  fs !! filename = Some node →
  let l := resolve_range (Fs.getsize node) (req_headers r !! "Range") in
  l_start_byte l ≤ l_end_byte l →
  servable filename node →
  ∃ resp, serve_file fs filename r = Py.Ok resp.
Proof.
  intros Hfile l Hle (Hname & date & Hdate & Hdl). unfold serve_file.
  rewrite Hfile. cbv zeta. fold l.
  rewrite (proj2 (Z.ltb_ge (l_end_byte l) (l_start_byte l))) by lia.
  rewrite Hdate. unfold Response_stream.
  rewrite headers_of_dict_ok; [by eexists|].
  destruct (Py.endswith _ _), (l_status_code l =? 206),
    (bool_decide _); cbn [negb];
    repeat (apply map_Forall_insert_2
            || apply (map_Forall_singleton (M:=gmap string)));
    rewrite ?has_newline_app, ?has_newline_str, ?Hname, ?Hdl; done.
Qed.

(** Both together. *)
Lemma serve_file_streamed (fs : gmap string Fs.node) (filename : string)
    (node : Fs.node) (r : request) :
  fs !! filename = Some node →
  let l := resolve_range (Fs.getsize node) (req_headers r !! "Range") in
  l_start_byte l ≤ l_end_byte l →
  servable filename node →
  ∃ resp hdrs date,
    serve_file fs filename r = Py.Ok resp
    ∧ http_date (Fs.getmtime node) = Py.Ok date
    ∧ status resp = l_status_code l
    ∧ body_of resp
      = Streamed (Created {| file_path := filename;
                             start_byte := l_start_byte l;
                             end_byte := l_end_byte l;
                             content_length := l_end_byte l - l_start_byte l + 1;
                             chunk_size := 65536;
                             target_duration := default 0%Q (FILE_DELAYS !! filename) |})
    ∧ headers resp = map_to_list hdrs
    ∧ hdrs !! "Content-Length"
      = (if bool_decide (md_get (args r) "no_content_length" = Some "true")
         then None else Some (Py.str (l_end_byte l - l_start_byte l + 1)))
    ∧ hdrs !! "Content-Range"
      = (if l_status_code l =? 206
         then Some ("bytes " +:+ Py.str (l_start_byte l) +:+ "-"
                             +:+ Py.str (l_end_byte l) +:+ "/"
                             +:+ Py.str (Fs.getsize node))
         else None)
    ∧ hdrs !! "Accept-Ranges" = Some "bytes"
    ∧ hdrs !! "ETag"
      = Some (dquote +:+ Py.str (Py.int_of_float (Fs.getmtime node)) +:+ "-"
                     +:+ Py.str (Fs.getsize node) +:+ dquote)
    ∧ hdrs !! "Last-Modified" = Some date
    ∧ hdrs !! "Content-Disposition"
      = Some ("attachment; filename=" +:+ filename)
    ∧ hdrs !! "Content-Type"
      = Some (if Py.endswith (str_lower filename) ".zip"
              then "application/zip" else "application/octet-stream")
    ∧ map_Forall (λ _ v, has_newline v = false) hdrs.
Proof.
  intros Hfile l Hle Hserv.
  destruct (serve_file_returns fs filename node r Hfile Hle Hserv)
    as [resp Hresp].
  destruct (serve_file_inv fs filename node r resp Hfile Hle Hresp)
    as (hdrs & date & Hrest).
  by exists resp, hdrs, date.
Qed.

(** X24.  A file whose name holds a carriage return or a line feed
    cannot be announced: whenever the resolved range is not empty and
    the date formats, [Response(...)] refuses the [Content-Disposition]
    value and the handler raises [ValueError]. *)
Lemma serve_file_refused (fs : gmap string Fs.node) (filename : string)
    (node : Fs.node) (r : request) (date : string) :
  fs !! filename = Some node →
  let l := resolve_range (Fs.getsize node) (req_headers r !! "Range") in
  l_start_byte l ≤ l_end_byte l →
  http_date (Fs.getmtime node) = Py.Ok date →
  has_newline filename = true →
  serve_file fs filename r = Py.Raise Py.ValueError.
Proof.
  intros Hfile l Hle Hdate Hname. unfold serve_file.
  rewrite Hfile. cbv zeta. fold l.
  rewrite (proj2 (Z.ltb_ge (l_end_byte l) (l_start_byte l))) by lia.
  rewrite Hdate. unfold Response_stream.
  rewrite (headers_of_dict_raise _ "Content-Disposition"
             ("attachment; filename=" +:+ filename)); [done| |].
  - destruct (Py.endswith _ _); by simplify_map_eq.
  - rewrite has_newline_app, Hname. apply orb_true_r.
Qed.

(** The 416 answer is given exactly for an empty resolved range. *)
Lemma serve_file_416_iff (fs : gmap string Fs.node) (filename : string)
    (node : Fs.node) (r : request) :
  fs !! filename = Some node →
  let l := resolve_range (Fs.getsize node) (req_headers r !! "Range") in
  (serve_file fs filename r
   = Py.Ok (Response_text "Requested Range Not Satisfiable" 416)
   ↔ l_end_byte l < l_start_byte l)
  ∧ (∀ resp, serve_file fs filename r = Py.Ok resp →
       l_start_byte l ≤ l_end_byte l →
       status resp = l_status_code l
       ∧ ∃ g, body_of resp = Streamed g).
Proof.
  intros Hfile l.
  assert (∀ resp, serve_file fs filename r = Py.Ok resp →
            l_start_byte l ≤ l_end_byte l →
            status resp = l_status_code l
            ∧ ∃ g, body_of resp = Streamed g) as Hok.
  { unfold serve_file. rewrite Hfile. cbv zeta. fold l. intros resp Hresp Hle.
    rewrite (proj2 (Z.ltb_ge (l_end_byte l) (l_start_byte l))) in Hresp
      by lia.
    destruct (http_date _); [|done]. unfold Response_stream in Hresp.
    destruct (headers_of_dict _); [|done]. injection Hresp as <-.
    cbn. eauto. }
  split; [|exact Hok]. split.
  - intros Hresp.
    destruct (decide (l_end_byte l < l_start_byte l)) as [|Hge]; [done|].
    destruct (Hok _ Hresp) as [_ [g Hg]]; [lia|]. discriminate Hg.
  - intros Hlt. unfold serve_file. rewrite Hfile. cbv zeta. fold l.
    by rewrite (proj2 (Z.ltb_lt (l_end_byte l) (l_start_byte l))) by done.
Qed.
End serve_file.

Section streaming.
Import Werkzeug Server.
Context `{Runtime}.

(** A streamed body comes from a path that exists and a range that is
    not empty. *)
Lemma streamed_inv (fs : gmap string Fs.node) (filename : string)
    (r : request) (resp : response) (g : generator) :
  serve_file fs filename r = Py.Ok resp →
  body_of resp = Streamed g →
  ∃ node, fs !! filename = Some node
    ∧ l_start_byte (resolve_range (Fs.getsize node) (req_headers r !! "Range"))
      ≤ l_end_byte (resolve_range (Fs.getsize node) (req_headers r !! "Range"))
    ∧ g = Created {| file_path := filename;
                     start_byte := l_start_byte (resolve_range (Fs.getsize node) (req_headers r !! "Range"));
                     end_byte := l_end_byte (resolve_range (Fs.getsize node) (req_headers r !! "Range"));
                     content_length :=
                       l_end_byte (resolve_range (Fs.getsize node) (req_headers r !! "Range"))
                       - l_start_byte (resolve_range (Fs.getsize node) (req_headers r !! "Range")) + 1;
                     chunk_size := 65536;
                     target_duration := default 0%Q (FILE_DELAYS !! filename) |}.
Proof.
  unfold serve_file. destruct (fs !! filename) as [node|].
  2:{ intros [= <-]. done. }
  cbv zeta. destruct (_ <? _) eqn:Hlt; [intros [= <-]; done|].
  apply Z.ltb_ge in Hlt. destruct (http_date _); [|done].
  unfold Response_stream. destruct (headers_of_dict _); [|done].
  intros [= <-]. cbn [body_of]. intros [= <-]. eauto.
Qed.

(** The generator of a range that starts at an offset of the file
    system, run on the regular file it was created for. *)
Lemma drain_created (fs : gmap string Fs.node) (env : closure)
    (file : Fs.file) (fuel : nat) :
  fs !! file_path env = Some (Fs.Regular file) →
  0 < chunk_size env → 0 ≤ start_byte env ≤ Fs.off_t_max →
  (Z.to_nat (content_length env) + 2 ≤ fuel)%nat →
  ∃ chunks,
    drain fs fuel (Created env) = (chunks, Complete)
    ∧ concat chunks
      = take (Z.to_nat (content_length env))
          (drop (Z.to_nat (start_byte env)) (Fs.content file))
    ∧ Forall (λ c, (0 < length c)%nat ∧ Z.of_nat (length c) ≤ chunk_size env)
        chunks.
Proof.
  intros Hfile Hcs Hstart Hfuel.
  destruct fuel as [|k]; [lia|]. rewrite drain_S. cbn [next].
  rewrite Hfile. cbn [Fs.open]. unfold Fs.seek.
  rewrite (proj2 (Z.ltb_ge (start_byte env) Fs.off_t_min))
    by (unfold Fs.off_t_min; lia).
  rewrite (proj2 (Z.ltb_ge Fs.off_t_max (start_byte env))) by lia.
  rewrite (proj2 (Z.ltb_ge (start_byte env) 0)) by lia.
  apply run_loop; [done|cbn; lia|lia].
Qed.

(** A negative start makes the first [next] raise: nothing is
    yielded.  The exception is [OSError] for an offset that [off_t]
    can hold and [ValueError] for one below. *)
Lemma drain_negative_start (fs : gmap string Fs.node) (env : closure)
    (file : Fs.file) (k : nat) :
  fs !! file_path env = Some (Fs.Regular file) → start_byte env < 0 →
  drain fs (S k) (Created env)
  = ([], Failed (if start_byte env <? Fs.off_t_min
                 then Py.ValueError else Py.OSError)).
Proof.
  intros Hfile Hneg. rewrite drain_S. cbn [next]. rewrite Hfile.
  cbn [Fs.open]. unfold Fs.seek.
  destruct (start_byte env <? Fs.off_t_min); [done|].
  rewrite (proj2 (Z.ltb_ge Fs.off_t_max (start_byte env)))
    by (unfold Fs.off_t_max; lia).
  by rewrite (proj2 (Z.ltb_lt (start_byte env) 0)).
Qed.


(** C10.  The generator of [serve_file], whatever is in the files
    directory when the body is read.  At every point of the iteration
    the chunks yielded so far have at most 65536 bytes each and at most
    [end - start + 1] bytes in all.  The iteration ends within that many
    resumptions, by exhaustion or by an exception of the first
    resumption; when the file is there and the start is not negative it
    ends by exhaustion, having yielded the requested bytes or as many of
    them as the file holds. *)
Theorem generate_chunks_bounded (fs fs' : gmap string Fs.node)
    (filename : string) (r : request) (resp : response) (g : generator) :
  serve_file fs filename r = Py.Ok resp →
  body_of resp = Streamed g →
  ∃ env, g = Created env
    ∧ chunk_size env = 64 * 1024
    ∧ start_byte env ≤ end_byte env
    ∧ content_length env = end_byte env - start_byte env + 1
    ∧ (∀ fuel chunks e,
         drain fs' fuel g = (chunks, e) →
         Forall (λ c, Z.of_nat (length c) ≤ 65536) chunks
         ∧ Z.of_nat (length (concat chunks)) ≤ content_length env)
    ∧ ∀ fuel, (Z.to_nat (content_length env) + 2 ≤ fuel)%nat →
        ∃ chunks e, drain fs' fuel g = (chunks, e)
          ∧ (e = Complete ∨ ∃ x, e = Failed x ∧ chunks = [])
          ∧ ∀ file' : Fs.file,
              fs' !! filename = Some (Fs.Regular file') →
              0 ≤ start_byte env →
              e = Complete
              ∧ concat chunks
                = take (Z.to_nat (content_length env))
                    (drop (Z.to_nat (start_byte env)) (Fs.content file')).
Proof.
  intros Hresp Hbody.
  destruct (streamed_inv _ _ _ _ _ Hresp Hbody) as (node & Hnode & Hle & ->).
  pose proof (resolve_range_end (Fs.getsize node) (req_headers r !! "Range"))
    as Hend.
  pose proof (getsize_bounds node) as Hsize.
  eexists. split; [reflexivity|].
  cbn [chunk_size start_byte end_byte content_length file_path].
  split; [done|]. split; [done|]. split; [done|].
  set (l := resolve_range _ _) in *. split.
  { intros [|k] chunks e.
    { intros [= <- <-]. split; [done|cbn; lia]. }
    rewrite drain_S. cbn [next file_path start_byte].
    destruct (fs' !! filename) as [node'|];
      [|intros [= <- <-]; split; [done|cbn; lia]].
    destruct (Fs.open node') as [f0|x];
      [|intros [= <- <-]; split; [done|cbn; lia]].
    destruct (Fs.seek _ _) as [f|x];
      [|intros [= <- <-]; split; [done|cbn; lia]].
    intros Hrun. apply run_loop_bounds in Hrun as [Hall Htotal]; [|done].
    cbn [chunk_size content_length] in *. split; [done|lia]. }
  intros fuel Hfuel. destruct fuel as [|k]; [lia|].
  destruct (fs' !! filename) as [[file'|d']|] eqn:Hfile'.
  3:{ exists [], (Failed Py.FileNotFoundError).
      rewrite drain_S. cbn [next file_path]. rewrite Hfile'.
      split; [done|]. split; [eauto|]. done. }
  2:{ exists [], (Failed Py.IsADirectoryError).
      rewrite drain_S. cbn [next file_path]. rewrite Hfile'.
      split; [done|]. split; [eauto|]. done. }
  destruct (decide (l_start_byte l < 0)) as [Hneg|Hpos].
  { eexists [], _.
    rewrite (drain_negative_start fs' _ file') by done.
    split; [done|]. split; [eauto|]. cbn [start_byte]. intros; lia. }
  match goal with |- context [drain fs' (S k) (Created ?e)] =>
    destruct (drain_created fs' e file' (S k)) as (chunks & Hd & Hcat & _)
  end; cbn [chunk_size start_byte content_length file_path];
    [done|done|lia|lia|].
  cbn [chunk_size start_byte content_length] in Hcat.
  exists chunks, Complete. split; [exact Hd|]. split; [by left|].
  intros file'' [= <-] _. done.
Qed.
End streaming.

Section suffix.
Import Werkzeug Server.
Context `{Runtime}.

(** C2.  Asked of the handler: for every request on an existing file,
    either [start <= end < totalSize] holds and the stream is served,
    or the answer is 416 without a body; no [Range] header, [bytes=-N]
    with [N > totalSize] included, makes it raise.  What the handler
    does for [bytes=-N] with [N] larger than the file, [N] being a
    number that [int] reads: the resolved range satisfies
    [start <= end < totalSize] with a negative start, the response is
    a 206 stream, and the first resumption of its generator raises at
    [f.seek], before any chunk: [OSError], or [ValueError] when the
    start is no [off_t]. *)
Theorem oversized_suffix_breaks_stream (fs : gmap string Fs.node)
    (filename : string) (file : Fs.file) (r : request) (N : Z) :
  fs !! filename = Some (Fs.Regular file) →
  servable filename file →
  Fs.getsize file < N < 10 ^ Py.int_max_str_digits →
  req_headers r !! "Range" = Some ("bytes=-" +:+ Py.str N) →
  let l := resolve_range (Fs.getsize file) (req_headers r !! "Range") in
  l_start_byte l ≤ l_end_byte l < Fs.getsize file
  ∧ l_start_byte l < 0
  ∧ ∃ resp,
      serve_file fs filename r = Py.Ok resp
      ∧ status resp = 206
      ∧ ∃ g, body_of resp = Streamed g
          ∧ ∀ fuel,
              drain fs (S fuel) g
              = ([], Failed (if Fs.getsize file - N <? Fs.off_t_min
                             then Py.ValueError else Py.OSError)).
Proof.
  intros Hfile Hserv HN Hrange l.
  pose proof (getsize_bounds file) as Hsize.
  pose proof (serve_file_streamed fs filename file r Hfile) as Hs.
  fold l in Hs. subst l. rewrite Hrange, resolve_suffix in * by lia.
  cbn [l_start_byte l_end_byte l_status_code] in *.
  destruct Hs as (resp & hdrs & date & Hresp & _ & Hst & Hbody & _);
    [lia|done|].
  split; [lia|]. split; [lia|]. exists resp. do 2 (split; [done|]).
  eexists. split; [exact Hbody|]. intros fuel.
  rewrite (drain_negative_start fs _ file); [done|done|cbn [start_byte]; lia].
Qed.


(** C5.  Asked of the handler: an existing file of zero bytes,
    requested without a [Range] header, is a successful stream of zero
    chunks.  What the handler does: the default range is
    [start = 0], [end = -1], so the request is answered with 416. *)
Theorem empty_file_not_satisfiable (fs : gmap string Fs.node)
    (filename : string) (file : Fs.file) (r : request) :
  fs !! filename = Some (Fs.Regular file) →
  Fs.content file = [] →
  req_headers r !! "Range" = None →
  serve_file fs filename r
  = Py.Ok (Response_text "Requested Range Not Satisfiable" 416).
Proof.
  intros Hfile Hempty Hrange. unfold serve_file.
  rewrite Hfile, Hrange. cbn [Fs.getsize]. rewrite Hempty. reflexivity.
Qed.

End suffix.

(** ** The JSON accessor and the echo handlers *)

Section json.
Import Werkzeug Server.
Context `{Runtime}.

(** Without a JSON content type the accessor returns: the parsed value
    if the body decodes, [None] otherwise. *)
Lemma get_json_data_fallback (r : request) :
  is_json r = false →
  ∃ v, get_json_data r = Py.Ok v
    ∧ (v = Json.JNone
       ∨ ∃ text, utf8_decode (req_data r) = Some text
           ∧ json_loads text = Some v).
Proof.
  intros Hj. unfold get_json_data, try_load. rewrite Hj.
  destruct (Py.bytes_truthy (req_data r));
    [|exists Json.JNone; split; [done|by left]].
  destruct (utf8_decode (req_data r)) as [text|] eqn:Htext;
    [|exists Json.JNone; split; [done|by left]].
  destruct (json_loads text) as [v|] eqn:Hv;
    [|exists Json.JNone; split; [done|by left]].
  exists v. split; [done|]. right. by exists text.
Qed.

(** C7.  Asked of the accessor: it returns the parsed JSON or [None]
    and never raises, a malformed body under a JSON content type
    included.  What [get_json_data] does there: it returns
    [request.json], outside its [try] block, and that raises
    [BadRequest] for a body that does not decode, the decoder raising
    [ValueError]; any other exception of the decoder is raised as it
    is. *)
Theorem get_json_data_raises (r : request) (e : Py.exn) :
  is_json r = true →
  json_loads_bytes (req_data r) = Py.Raise e →
  get_json_data r
  = Py.Raise (if Py.is_value_error e then Py.BadRequest else e).
Proof.
  intros Hj Hbad. unfold get_json_data, request_json. rewrite Hj, Hbad.
  by destruct (Py.is_value_error e).
Qed.

(** C8.  Asked of PUT, PATCH and DELETE: [data] is the body text only
    when neither JSON nor form data was parsed, and empty whenever
    JSON was parsed, a JSON body with a false truth value included.
    What the handlers do: they test the truth value of the parsed
    JSON, so a body that parses to a value other than [None] whose
    truth value is false ([{}], [0], [false], ...) comes back in
    [data] as well as in [json]. *)
Theorem falsy_json_echoed_as_data (r : request) (v : Json.value)
    (text : string) :
  get_json_data r = Py.Ok v →
  v ≠ Json.JNone →
  Json.truthy v = false →
  req_form r = [] →
  utf8_decode (req_data r) = Some text →
  ∃ put patch delete,
    httpbin_put r = Py.Ok put
    ∧ httpbin_patch r = Py.Ok patch
    ∧ httpbin_delete r = Py.Ok delete
    ∧ m_json put = v ∧ m_json patch = v ∧ m_json delete = v
    ∧ m_data put = text ∧ m_data patch = text ∧ m_data delete = text.
Proof.
  intros Hjson _ Hfalsy Hform Htext.
  unfold httpbin_put, httpbin_patch, httpbin_delete, decode_data, form.
  rewrite Hjson, Hfalsy, Hform, Htext. cbn.
  do 3 eexists. repeat split.
Qed.

(** With a parsed JSON value whose truth value is true, or with form
    data, [data] is empty. *)
Lemma truthy_json_empties_data (r : request) (v : Json.value) :
  get_json_data r = Py.Ok v →
  Json.truthy v = true →
  ∃ put, httpbin_put r = Py.Ok put ∧ m_json put = v ∧ m_data put = "".
Proof.
  intros Hjson Htruthy. unfold httpbin_put. rewrite Hjson, Htruthy. cbn.
  eexists. repeat split.
Qed.
End json.

(** ** Multi-dicts *)

Section multidict.
Import Werkzeug.

Lemma md_add_keys (k v : string) (md : MultiDict) :
  (md_add k v md).*1 = if decide (k ∈ md.*1) then md.*1 else md.*1 ++ [k].
Proof.
  induction md as [|[k' vs] md IH]; [done|]. cbn.
  destruct (decide (k = k')) as [->|Hne].
  - rewrite decide_True by apply list_elem_of_here. done.
  - cbn. rewrite IH. destruct (decide (k ∈ md.*1)) as [Hin|Hnin].
    + rewrite decide_True by (by apply list_elem_of_further). done.
    + rewrite decide_False; [done|].
      intros [?|?]%elem_of_cons; done.
Qed.

Lemma md_add_items (k v : string) (md : MultiDict) :
  Forall (λ kvs, kvs.2 ≠ []) md →
  md_items (md_add k v md)
  = if decide (k ∈ md.*1) then md_items md else md_items md ++ [(k, v)].
Proof.
  unfold md_items. induction md as [|[k' vs] md IH]; [done|].
  intros [Hvs Hmd]%Forall_cons. cbn in Hvs. cbn [md_add].
  destruct (decide (k = k')) as [->|Hne].
  - rewrite decide_True by apply list_elem_of_here.
    cbn. destruct vs; done.
  - cbn. rewrite IH by done. destruct (decide (k ∈ md.*1)) as [Hin|Hnin].
    + rewrite decide_True by (by apply list_elem_of_further). done.
    + rewrite decide_False; [by destruct vs|].
      intros [?|?]%elem_of_cons; done.
Qed.

Lemma md_add_nonempty (k v : string) (md : MultiDict) :
  Forall (λ kvs, kvs.2 ≠ []) md → Forall (λ kvs, kvs.2 ≠ []) (md_add k v md).
Proof.
  induction md as [|[k' vs] md IH]; intros Hmd; cbn.
  - by repeat constructor.
  - apply Forall_cons in Hmd as [Hvs Hmd].
    destruct (decide (k = k')); constructor; cbn; auto.
    by destruct vs.
Qed.

Lemma md_items_keys (md : MultiDict) :
  Forall (λ kvs, kvs.2 ≠ []) md → (md_items md).*1 = md.*1.
Proof.
  unfold md_items. induction md as [|[k vs] md IH]; [done|].
  intros [Hvs Hmd]%Forall_cons. cbn in *. destruct vs; [done|].
  cbn. by rewrite IH.
Qed.

Lemma md_items_foldl (q : list (string * string)) (md : MultiDict) :
  Forall (λ kvs, kvs.2 ≠ []) md →
  md_items (foldl (λ md kv, md_add kv.1 kv.2 md) md q)
  = md_items md ++ firsts md.*1 q.
Proof.
  revert md. induction q as [|[k v] q IH]; intros md Hmd; cbn.
  - by rewrite app_nil_r.
  - rewrite IH by (by apply md_add_nonempty).
    rewrite md_add_items, md_add_keys by done.
    destruct (decide (k ∈ md.*1)); [done|]. by rewrite <- app_assoc.
Qed.

(** The items of the multi-dict of a query string: each key once, in
    order of first appearance, with the value given first. *)
Lemma md_items_of_pairs (q : list (string * string)) :
  md_items (md_of_pairs q) = firsts [] q.
Proof. unfold md_of_pairs. by rewrite md_items_foldl. Qed.

Lemma firsts_elem (seen : list string) (q : list (string * string))
    (kv : string * string) :
  kv ∈ firsts seen q → kv ∈ q ∧ kv.1 ∉ seen.
Proof.
  revert seen. induction q as [|kv' q IH]; intros seen; cbn.
  - by intros ?%elem_of_nil.
  - destruct (decide (kv'.1 ∈ seen)) as [Hin|Hnin].
    + intros [? ?]%IH. split; [by apply list_elem_of_further|done].
    + intros [->|[? Hn]%IH]%elem_of_cons.
      * split; [apply list_elem_of_here|done].
      * split; [by apply list_elem_of_further|].
        intros ?. apply Hn, elem_of_app. by left.
Qed.

Lemma firsts_keys (seen : list string) (q : list (string * string))
    (k : string) :
  k ∈ q.*1 → k ∉ seen → k ∈ (firsts seen q).*1.
Proof.
  revert seen. induction q as [|kv q IH]; intros seen; cbn.
  - by intros ?%elem_of_nil.
  - intros Hk Hseen. destruct (decide (kv.1 ∈ seen)) as [Hin|Hnin].
    + apply IH; [|done]. apply elem_of_cons in Hk as [->|?]; done.
    + cbn. destruct (decide (k = kv.1)) as [->|Hne].
      * apply list_elem_of_here.
      * apply list_elem_of_further, IH.
        -- apply elem_of_cons in Hk as [?|?]; done.
        -- intros [?|?%list_elem_of_singleton]%elem_of_app; done.
Qed.

Lemma firsts_NoDup (seen : list string) (q : list (string * string)) :
  NoDup (firsts seen q).*1.
Proof.
  revert seen. induction q as [|kv q IH]; intros seen; cbn.
  - constructor.
  - destruct (decide (kv.1 ∈ seen)); [apply IH|].
    cbn. constructor; [|apply IH].
    intros (kv' & Hk & [_ Hn]%firsts_elem)%list_elem_of_fmap.
    apply Hn, elem_of_app. right. rewrite Hk. apply list_elem_of_here.
Qed.

Lemma assoc_first_firsts (seen : list string) (q : list (string * string))
    (k : string) :
  k ∉ seen → assoc_first k (firsts seen q) = assoc_first k q.
Proof.
  revert seen. induction q as [|[k' v'] q IH]; intros seen Hk; [done|].
  cbn. destruct (decide (k' ∈ seen)) as [Hin|Hnin].
  - rewrite decide_False by (by intros ->). by apply IH.
  - cbn. destruct (decide (k' = k)) as [->|Hne]; [done|].
    apply IH. intros [?|?%list_elem_of_singleton]%elem_of_app; done.
Qed.

Lemma assoc_first_NoDup (l : list (string * string)) (k v : string) :
  NoDup l.*1 → (k, v) ∈ l → assoc_first k l = Some v.
Proof.
  induction l as [|[k' v'] l IH]; [by intros _ ?%elem_of_nil|].
  cbn. intros [Hk' Hl]%NoDup_cons [[= -> ->]|Hin]%elem_of_cons.
  - by rewrite decide_True.
  - rewrite decide_False; [by apply IH|].
    intros ->. apply Hk', list_elem_of_fmap. by exists (k, v).
Qed.

Lemma assoc_first_elem (l : list (string * string)) (k v : string) :
  assoc_first k l = Some v → (k, v) ∈ l.
Proof.
  induction l as [|[k' v'] l IH]; [done|]. cbn.
  destruct (decide (k' = k)) as [->|Hne].
  - intros [= ->]. apply list_elem_of_here.
  - intros ?. by apply list_elem_of_further, IH.
Qed.

(** [request.args.get(k)] is the first value given for [k]. *)
Lemma md_get_of_pairs (q : list (string * string)) (k : string) :
  md_get (md_of_pairs q) k = assoc_first k q.
Proof.
  unfold md_get. rewrite md_items_of_pairs.
  apply assoc_first_firsts. by intros ?%elem_of_nil.
Qed.
End multidict.

(** ** Response headers *)

Section headers.
Import Werkzeug Server.
Context `{Runtime}.

Lemma same_name_refl (k : string) : same_name k k = true.
Proof. by apply bool_decide_eq_true. Qed.

Lemma same_name_eq (a b : string) :
  same_name a b = true ↔ str_lower a = str_lower b.
Proof. apply bool_decide_eq_true. Qed.

Lemma same_name_ne (a b : string) :
  same_name a b = false ↔ str_lower a ≠ str_lower b.
Proof. apply bool_decide_eq_false. Qed.

Ltac names :=
  repeat match goal with
  | H : same_name _ _ = true |- _ => apply same_name_eq in H
  | H : same_name _ _ = false |- _ => apply same_name_ne in H
  | |- same_name _ _ = true => apply same_name_eq
  | |- same_name _ _ = false => apply same_name_ne
  end; try congruence.

Lemma named_cons (k : string) (h : string * string) (hs : Headers) :
  named k (h :: hs) = if same_name h.1 k then h :: named k hs else named k hs.
Proof.
  unfold named. rewrite filter_cons.
  destruct (same_name h.1 k); by case_decide.
Qed.

Lemma named_app (k : string) (hs hs' : Headers) :
  named k (hs ++ hs') = named k hs ++ named k hs'.
Proof. apply filter_app. Qed.

(** Dropping the headers named [k] drops all headers named [k2] when
    the two names are the same, and none of them otherwise. *)
Lemma named_dropped (k k2 : string) (hs : Headers) :
  named k2 (filter (λ t, same_name t.1 k = false) hs)
  = if same_name k k2 then [] else named k2 hs.
Proof.
  induction hs as [|h hs IH].
  - by destruct (same_name k k2).
  - rewrite filter_cons, (named_cons k2 h hs).
    destruct (same_name h.1 k) eqn:Hhk; case_decide; try done;
      rewrite ?named_cons, IH;
      destruct (same_name k k2) eqn:Hk, (same_name h.1 k2) eqn:Hh;
      try done; exfalso; names.
Qed.

(** The headers named [k2] after [headers[k] = v]. *)
Lemma named_set_go (k v k2 : string) (hs : Headers) :
  named k2 (match set_go k v hs with
            | Some hs' => hs'
            | None => hs ++ [(k, v)]
            end)
  = if same_name k k2 then [(k, v)] else named k2 hs.
Proof.
  induction hs as [|[k' v'] hs IH].
  - cbn [set_go app]. rewrite named_cons. cbn. by destruct (same_name k k2).
  - cbn [set_go]. destruct (same_name k' k) eqn:Hk'.
    + rewrite !named_cons, named_dropped. cbn [fst].
      destruct (same_name k k2) eqn:Hk; [done|].
      destruct (same_name k' k2) eqn:Hk'2; [exfalso; names|done].
    + destruct (set_go k v hs) as [hs'|]; cbn [fmap option_fmap option_map];
        rewrite <- ?app_comm_cons, !(named_cons k2 (k', v')), IH; cbn [fst];
        destruct (same_name k k2) eqn:Hk, (same_name k' k2) eqn:Hk'2;
        try done; exfalso; names.
Qed.

Lemma named_headers_set (k v k2 : string) (hs hs' : Headers) :
  headers_set k v hs = Py.Ok hs' →
  named k2 hs' = if same_name k k2 then [(k, v)] else named k2 hs.
Proof.
  unfold headers_set. destruct (has_newline v); [done|].
  intros [= <-]. apply named_set_go.
Qed.

(** After the loop, the headers of a name that an item carries are the
    last such item alone; the other headers are as before. *)
Lemma named_set_all (items : list (string * string)) (hs hsf : Headers)
    (k2 : string) :
  set_all items hs = Py.Ok hsf →
  named k2 hsf = match last_named k2 items with
                 | Some kv => [kv]
                 | None => named k2 hs
                 end.
Proof.
  revert hs. induction items as [|[k v] items IH]; intros hs; cbn.
  - by intros [= ->].
  - destruct (headers_set k v hs) as [hs1|] eqn:Hset; [|done].
    intros Hall. rewrite (IH _ Hall).
    destruct (last_named k2 items); [done|].
    rewrite (named_headers_set _ _ _ _ _ Hset).
    by destruct (same_name k k2).
Qed.

Lemma set_all_ok (items : list (string * string)) (hs : Headers) :
  Forall (λ kv, has_newline kv.2 = false) items →
  ∃ hsf, set_all items hs = Py.Ok hsf.
Proof.
  revert hs. induction items as [|[k v] items IH]; intros hs; cbn.
  - eauto.
  - intros [Hv Hitems]%Forall_cons. cbn in Hv.
    unfold headers_set. rewrite Hv. by apply IH.
Qed.

Lemma last_named_some (items : list (string * string)) (k k0 : string) :
  k0 ∈ items.*1 → same_name k0 k = true → is_Some (last_named k items).
Proof.
  induction items as [|[k' v'] items IH]; [by intros ?%elem_of_nil|].
  cbn. intros [->|Hin]%elem_of_cons Hsame.
  - rewrite Hsame. by destruct (last_named k items).
  - destruct (IH Hin Hsame) as [kv ->]. done.
Qed.

Lemma last_named_unique (items : list (string * string)) (k v : string) :
  (k, v) ∈ items → NoDup items.*1 →
  (∀ k', k' ∈ items.*1 → same_name k' k = true → k' = k) →
  last_named k items = Some (k, v).
Proof.
  induction items as [|[k' v'] items IH]; [by intros ?%elem_of_nil|].
  cbn. intros Hin [Hk' Hnd]%NoDup_cons Huniq.
  apply elem_of_cons in Hin as [[= <- <-]|Hin].
  - assert (last_named k items = None) as ->; [|by rewrite same_name_refl].
    destruct (last_named k items) as [[k1 v1]|] eqn:Hl; [|done]. exfalso.
    assert ((k1, v1) ∈ items ∧ same_name k1 k = true) as [Hin1 Hs1].
    { clear -Hl. induction items as [|kv items IH]; [done|]. cbn in Hl.
      destruct (last_named k items) as [kv'|] eqn:Hr.
      - injection Hl as ->. destruct (IH eq_refl).
        split; [by apply list_elem_of_further|done].
      - destruct (same_name kv.1 k) eqn:Hs; [|done]. injection Hl as ->.
        split; [apply list_elem_of_here|done]. }
    assert (k1 ∈ items.*1) as Hk1.
    { apply list_elem_of_fmap. by exists (k1, v1). }
    rewrite (Huniq k1) in Hk1; [done| |done]. by apply list_elem_of_further.
  - rewrite IH; [done..|].
    intros k1 Hk1. apply Huniq. by apply list_elem_of_further.
Qed.

(** What the loop over [request.args.items()] gives.  For a request
    whose first parameter values hold no line break, the response is
    returned and has, for every parameter name of the query string,
    exactly one header of that name, names compared without case.  When
    no other parameter name equals a name up to case, that header is
    the name itself with the first value given for it. *)
Theorem response_headers_one_per_name (r : request) :
  (∀ k v, assoc_first k (req_query r) = Some v → has_newline v = false) →
  ∃ resp,
    response_headers r = Py.Ok resp
    ∧ status resp = 200
    ∧ (∀ k, k ∈ (req_query r).*1 →
         length (named k (headers resp)) = 1%nat)
    ∧ (∀ k v,
         assoc_first k (req_query r) = Some v →
         (∀ k', k' ∈ (req_query r).*1 → same_name k' k = true → k' = k) →
         (k, v) ∈ headers resp).
Proof.
  intros Hnl. unfold response_headers, args.
  set (items := md_items (md_of_pairs (req_query r))).
  assert (items = firsts [] (req_query r)) as Hitems
    by apply md_items_of_pairs.
  assert (NoDup items.*1) as Hnd by (rewrite Hitems; apply firsts_NoDup).
  assert (∀ k, k ∈ (req_query r).*1 ↔ k ∈ items.*1) as Hkeys.
  { intros k. rewrite Hitems. split.
    - intros ?. apply firsts_keys; [done|by intros ?%elem_of_nil].
    - intros (kv & -> & [? _]%firsts_elem)%list_elem_of_fmap.
      by apply list_elem_of_fmap_2. }
  assert (∀ k v, (k, v) ∈ items ↔ assoc_first k (req_query r) = Some v)
    as Hfirst.
  { intros k v.
    rewrite <- (assoc_first_firsts [] (req_query r) k), <- Hitems
      by (by intros ?%elem_of_nil).
    split; [by apply assoc_first_NoDup|apply assoc_first_elem]. }
  destruct (set_all_ok items (headers (Response_text "Headers set" 200)))
    as [hsf Hall].
  { apply Forall_forall. intros [k v] Hin. cbn.
    apply (Hnl k). by apply Hfirst. }
  rewrite Hall. eexists. split; [reflexivity|].
  cbn [status headers]. split; [done|]. split.
  - intros k Hk. rewrite (named_set_all _ _ _ k Hall).
    destruct (last_named_some items k k) as [kv ->];
      [by apply Hkeys|apply same_name_refl|done].
  - intros k v Hv Huniq. apply Hfirst in Hv.
    assert (named k hsf = [(k, v)]) as Hnamed.
    { rewrite (named_set_all _ _ _ k Hall), (last_named_unique items k v);
        [done..|].
      intros k' Hk'. apply Huniq. by apply Hkeys. }
    assert ((k, v) ∈ named k hsf) as Hin
      by (rewrite Hnamed; apply list_elem_of_here).
    by apply list_elem_of_filter in Hin as [_ ?].
Qed.
End headers.

(** ** Worked requests *)

Section worked.
Import Werkzeug Server Sample.

(** A pair that is in none of the positions of a concrete list. *)
Ltac absurd_elem H :=
  repeat (apply elem_of_cons in H as [H|H]; [discriminate H|]);
  by apply elem_of_nil in H.

(** The sample files have names and dates that can be announced. *)
Ltac sample_servable := split; [reflexivity|eexists; split; reflexivity].



Lemma generate_chunks_bounded_witness :
  ∃ env, Created {| file_path := "ten.bin"; start_byte := 2; end_byte := 5;
                    content_length := 4; chunk_size := 65536;
                    target_duration := 0%Q |} = Created env
    ∧ chunk_size env = 64 * 1024
    ∧ start_byte env ≤ end_byte env
    ∧ content_length env = end_byte env - start_byte env + 1
    ∧ (∀ fuel chunks e,
         drain disk fuel
           (Created {| file_path := "ten.bin"; start_byte := 2;
                       end_byte := 5; content_length := 4;
                       chunk_size := 65536; target_duration := 0%Q |})
         = (chunks, e) →
         Forall (λ c, Z.of_nat (length c) ≤ 65536) chunks
         ∧ Z.of_nat (length (concat chunks)) ≤ content_length env)
    ∧ ∀ fuel, (Z.to_nat (content_length env) + 2 ≤ fuel)%nat →
        ∃ chunks e,
          drain disk fuel
            (Created {| file_path := "ten.bin"; start_byte := 2;
                        end_byte := 5; content_length := 4;
                        chunk_size := 65536; target_duration := 0%Q |})
          = (chunks, e)
          ∧ (e = Complete ∨ ∃ x, e = Failed x ∧ chunks = [])
          ∧ ∀ file' : Fs.file,
              disk !! "ten.bin" = Some (Fs.Regular file') →
              0 ≤ start_byte env →
              e = Complete
              ∧ concat chunks
                = take (Z.to_nat (content_length env))
                    (drop (Z.to_nat (start_byte env)) (Fs.content file')).
Proof.
  destruct (serve_file disk "ten.bin" (get [] (Some "bytes=2-5")))
    as [resp|e] eqn:Hresp; [|vm_compute in Hresp; discriminate Hresp].
  apply (generate_chunks_bounded disk disk "ten.bin"
           (get [] (Some "bytes=2-5")) resp _ Hresp).
  vm_compute in Hresp. injection Hresp as <-. reflexivity.
Defined.

Lemma oversized_suffix_breaks_stream_witness :
  let r := get [] (Some "bytes=-20") in
  let l := resolve_range (Fs.getsize ten_file) (req_headers r !! "Range") in
  l_start_byte l ≤ l_end_byte l < Fs.getsize ten_file
  ∧ l_start_byte l < 0
  ∧ ∃ resp,
      serve_file disk "ten.bin" r = Py.Ok resp
      ∧ status resp = 206
      ∧ ∃ g, body_of resp = Streamed g
          ∧ ∀ fuel,
              drain disk (S fuel) g
              = ([], Failed (if Fs.getsize ten_file - 20 <? Fs.off_t_min
                             then Py.ValueError else Py.OSError)).
Proof.
  apply (oversized_suffix_breaks_stream disk "ten.bin" ten_file
           (get [] (Some "bytes=-20")) 20).
  - reflexivity.
  - sample_servable.
  - vm_compute. split; reflexivity.
  - reflexivity.
Defined.

(** C3.  Asked of the handler: for every [N > 0], [Range: bytes=-N]
    returns the last [N] bytes of the file, the resolved range being
    [start = totalSize - N], [end = totalSize - 1].  What the handler
    does for a suffix longer than the file, here [bytes=-20] on the
    ten-byte file: the range resolves to [-10..9] and no bytes at all
    are delivered, iteration over the body ending in [OSError]. *)
Theorem oversized_suffix_returns_nothing :
  let r := get [] (Some "bytes=-20") in
  resolve_range (Fs.getsize ten_file) (req_headers r !! "Range")
  = {| l_start_byte := -10; l_end_byte := 9; l_status_code := 206 |}
  ∧ (∀ bytes, ¬ delivers disk (serve_file disk "ten.bin" r) bytes)
  ∧ ¬ suffix_rule disk "ten.bin" 20.
Proof.
  cbv zeta.
  assert (∀ bytes,
            ¬ delivers disk
                (serve_file disk "ten.bin" (get [] (Some "bytes=-20"))) bytes)
    as Hnone.
  { intros bytes (resp & g & fuel & chunks & Hresp & Hbody & Hdrain & _).
    vm_compute in Hresp. injection Hresp as <-.
    vm_compute in Hbody. injection Hbody as <-.
    destruct fuel; vm_compute in Hdrain; discriminate. }
  split; [reflexivity|]. split; [exact Hnone|].
  intros Hrule.
  destruct (Hrule ten_file (get [] (Some "bytes=-20")) eq_refl eq_refl)
    as (_ & _ & Hdel).
  exact (Hnone _ Hdel).
Qed.


(** C4.  Asked of the handler: a [Range] header that does not parse is
    ignored, and the whole file, [0..totalSize-1], is served with
    status 200.  What the handler does for [bytes=5-abc]: the start
    has been assigned when [int('abc')] raises, so the ten-byte file
    is answered with status 200 and the bytes [5..9], and a three-byte
    file with 416. *)
Theorem malformed_end_keeps_start :
  let r := get [] (Some "bytes=5-abc") in
  resolve_range 10 (req_headers r !! "Range")
  = {| l_start_byte := 5; l_end_byte := 9; l_status_code := 200 |}
  ∧ (∃ resp g,
       serve_file disk "ten.bin" r = Py.Ok resp
       ∧ status resp = 200
       ∧ body_of resp = Streamed g
       ∧ drain disk 3 g = ([[x05; x06; x07; x08; x09]], Complete))
  ∧ serve_file disk "three.bin" r
    = Py.Ok (Response_text "Requested Range Not Satisfiable" 416).
Proof.
  cbv zeta. split; [reflexivity|]. split; [|reflexivity].
  do 2 eexists. split; [vm_compute; reflexivity|].
  split; [reflexivity|]. split; reflexivity.
Qed.

Lemma empty_file_not_satisfiable_witness :
  serve_file disk "empty.bin" (get [] None)
  = Py.Ok (Response_text "Requested Range Not Satisfiable" 416).
Proof.
  apply (empty_file_not_satisfiable disk "empty.bin" empty_file
           (get [] None)); reflexivity.
Defined.



Lemma get_json_data_raises_witness :
  get_json_data (send "application/json" "{bad") = Py.Raise Py.BadRequest.
Proof.
  apply (get_json_data_raises (send "application/json" "{bad")
           Py.ValueError); reflexivity.
Defined.

Lemma falsy_json_echoed_as_data_witness :
  let r := send "application/json" "{}" in
  ∃ put patch delete,
    httpbin_put r = Py.Ok put
    ∧ httpbin_patch r = Py.Ok patch
    ∧ httpbin_delete r = Py.Ok delete
    ∧ m_json put = Json.JDict [] ∧ m_json patch = Json.JDict []
    ∧ m_json delete = Json.JDict []
    ∧ m_data put = "{}" ∧ m_data patch = "{}" ∧ m_data delete = "{}".
Proof.
  apply (falsy_json_echoed_as_data (send "application/json" "{}")
           (Json.JDict []) "{}"); (reflexivity || discriminate).
Defined.

(** C9.  Asked of the handler: every (name, value) pair of the query
    string is copied into the response headers, a name repeated [k]
    times giving [k] headers.  What the handler does for [?a=1&a=2]:
    its loop runs over [request.args.items()], which yields a name
    once, with its first value, so the response has the header [a: 1]
    and nothing for the pair [a=2]. *)
Theorem repeated_parameter_dropped :
  let r := get [("a", "1"); ("a", "2")] None in
  response_headers r
  = Py.Ok {| status := 200;
             headers := [("Content-Type", "text/html; charset=utf-8");
                         ("Content-Length", "11"); ("a", "1")];
             body_of := Fixed "Headers set" |}
  ∧ ¬ echoes_every_pair r.
Proof.
  cbv zeta. split; [reflexivity|].
  intros (resp & Hresp & Hall & _).
  vm_compute in Hresp. injection Hresp as <-.
  specialize (Hall ("a", "2")). cbn [headers req_query get] in Hall.
  assert (("a", "2") ∈ [("a", "1"); ("a", "2")]) as Hq
    by apply list_elem_of_further, list_elem_of_here.
  specialize (Hall Hq). absurd_elem Hall.
Qed.

Lemma response_headers_one_per_name_witness :
  let r := get [("a", "1"); ("a", "2"); ("B", "x")] None in
  ∃ resp,
    response_headers r = Py.Ok resp
    ∧ status resp = 200
    ∧ (∀ k, k ∈ (req_query r).*1 →
         length (named k (headers resp)) = 1%nat)
    ∧ (∀ k v,
         assoc_first k (req_query r) = Some v →
         (∀ k', k' ∈ (req_query r).*1 → same_name k' k = true → k' = k) →
         (k, v) ∈ headers resp).
Proof.
  apply (response_headers_one_per_name
           (get [("a", "1"); ("a", "2"); ("B", "x")] None)).
  intros k v. cbn [req_query get assoc_first].
  repeat case_decide; intros [= <-]; reflexivity.
Defined.
End worked.

(** * Further properties of the handlers *)

(** ** More on [serve_file] *)

Section more_serve_file.
Import Werkzeug Server.
Context `{Runtime}.

(** X1.  The outcome of [serve_file].  Nothing at the path: 404 with
    the text [File not found].  A file or a directory at the path: 416
    exactly when the resolved range is empty; otherwise a response is
    returned exactly when the name holds no line break and the
    modification time formats to a date (which holds none), it has
    status 200 or 206 and a streamed body, 206 only for a request that
    carries a non-empty [Range] header; and an exception is the one of
    the date formatting or a [ValueError]. *)
Theorem serve_file_status (fs : gmap string Fs.node) (filename : string)
    (r : request) :
  match fs !! filename with
  | None =>
      serve_file fs filename r = Py.Ok (Response_text "File not found" 404)
  | Some node =>
      let l := resolve_range (Fs.getsize node) (req_headers r !! "Range") in
      (serve_file fs filename r
       = Py.Ok (Response_text "Requested Range Not Satisfiable" 416)
       ↔ l_end_byte l < l_start_byte l)
      ∧ (l_start_byte l ≤ l_end_byte l →
         ((∃ resp, serve_file fs filename r = Py.Ok resp)
          ↔ servable filename node)
         ∧ (∀ resp, serve_file fs filename r = Py.Ok resp →
              (status resp = 200 ∨ status resp = 206)
              ∧ (∃ g, body_of resp = Streamed g)
              ∧ (status resp = 206 →
                 ∃ h, req_headers r !! "Range" = Some h ∧ h ≠ ""))
         ∧ (∀ e, serve_file fs filename r = Py.Raise e →
              http_date (Fs.getmtime node) = Py.Raise e
              ∨ e = Py.ValueError))
  end.
Proof.
  destruct (fs !! filename) as [node|] eqn:Hfile.
  2:{ unfold serve_file. by rewrite Hfile. }
  intros l.
  split; [apply (serve_file_416_iff fs filename node r Hfile)|].
  intros Hle. split; [|split].
  - split; [|by apply serve_file_returns].
    intros [resp Hresp].
    destruct (serve_file_inv fs filename node r resp Hfile Hle Hresp)
      as (hdrs & date & Hdate & _ & _ & _ & _ & _ & _ & _ & Hlm & Hcd & _
          & Hclean).
    split.
    + pose proof (Hclean _ _ Hcd) as Hnl. cbn in Hnl.
      rewrite has_newline_app in Hnl. by apply orb_false_iff in Hnl as [_ ?].
    + exists date. split; [done|]. exact (Hclean _ _ Hlm).
  - intros resp Hresp.
    destruct (serve_file_inv fs filename node r resp Hfile Hle Hresp)
      as (hdrs & date & _ & Hst & Hbody & _). fold l in Hst.
    rewrite Hst.
    split; [apply resolve_range_status|]. split; [by eexists|].
    intros Hs. subst l. unfold resolve_range in Hs.
    destruct (req_headers r !! "Range") as [h|]; [|done].
    exists h. split; [done|]. intros ->. done.
  - intros e. unfold serve_file. rewrite Hfile. cbv zeta. fold l.
    rewrite (proj2 (Z.ltb_ge (l_end_byte l) (l_start_byte l))) by lia.
    destruct (http_date _) as [date|e']; [|intros [= <-]; by left].
    unfold Response_stream, headers_of_dict.
    destruct (existsb _ _); [|done]. intros [= <-]. by right.
Qed.


(** X3.  On every answer for a path that exists, other than 416, a
    [Content-Range] header is present exactly when the status is 206;
    it then reads [bytes start-end/total] for the resolved range, and
    that range satisfies [start <= end < total]. *)
Theorem content_range_iff_partial (fs : gmap string Fs.node)
    (filename : string) (node : Fs.node) (r : request) (resp : response) :
  fs !! filename = Some node →
  serve_file fs filename r = Py.Ok resp →
  status resp ≠ 416 →
  let l := resolve_range (Fs.getsize node) (req_headers r !! "Range") in
  ((∃ v, ("Content-Range", v) ∈ headers resp) ↔ status resp = 206)
  ∧ (∀ v, ("Content-Range", v) ∈ headers resp →
       v = "bytes " +:+ Py.str (l_start_byte l) +:+ "-"
                    +:+ Py.str (l_end_byte l) +:+ "/"
                    +:+ Py.str (Fs.getsize node)
       ∧ l_start_byte l ≤ l_end_byte l < Fs.getsize node).
Proof.
  intros Hfile Hresp Hstatus l.
  assert (l_start_byte l ≤ l_end_byte l) as Hle.
  { destruct (decide (l_start_byte l ≤ l_end_byte l)) as [|Hgt]; [done|].
    exfalso. apply Hstatus.
    destruct (serve_file_416_iff fs filename node r Hfile) as [[_ H416] _].
    rewrite H416 in Hresp by (fold l; lia). by injection Hresp as <-. }
  destruct (serve_file_inv fs filename node r resp Hfile Hle Hresp)
    as (hdrs & date & _ & Hst & _ & Hh & _ & Hcr & _). fold l in Hst, Hcr.
  pose proof (resolve_range_end (Fs.getsize node) (req_headers r !! "Range"))
    as Hend. fold l in Hend.
  split.
  - rewrite Hst. setoid_rewrite Hh. setoid_rewrite elem_of_map_to_list.
    rewrite Hcr. destruct (Z.eqb_spec (l_status_code l) 206); naive_solver.
  - intros v. rewrite Hh, elem_of_map_to_list, Hcr.
    destruct (l_status_code l =? 206); [|done]. intros [= <-].
    split; [done|lia].
Qed.
End more_serve_file.

(** ** More forms of the [Range] header *)

Section more_ranges.
Import Werkzeug Server.
Context `{Runtime}.


(** The range handling sees a non-empty header only through what
    [replace] makes of it. *)
Lemma resolve_range_replace (total : Z) (h h' : string) :
  h ≠ "" → h' ≠ "" →
  Py.replace "bytes=" "" h = Py.replace "bytes=" "" h' →
  resolve_range total (Some h) = resolve_range total (Some h').
Proof.
  intros Hh Hh' Hrep. unfold resolve_range, parse_range.
  destruct h; [done|]. destruct h'; [done|]. cbn [Py.str_truthy].
  by rewrite Hrep.
Qed.

(** [serve_file] looks at the request through its [Range] header and
    its query string only. *)
Lemma serve_file_ext (fs : gmap string Fs.node) (filename : string)
    (r r' : request) :
  req_query r = req_query r' →
  (∀ node, fs !! filename = Some node →
     resolve_range (Fs.getsize node) (req_headers r !! "Range")
     = resolve_range (Fs.getsize node) (req_headers r' !! "Range")) →
  serve_file fs filename r = serve_file fs filename r'.
Proof.
  intros Hq Hl. unfold serve_file, args.
  destruct (fs !! filename) as [node|]; [|done].
  by rewrite (Hl node eq_refl), Hq.
Qed.


(** [bytes=A-B-t]: what follows the second hyphen is not looked at,
    whether [int] reads the two numbers or not. *)
Lemma resolve_extra_parts (total A B : Z) (t : string) :
  0 ≤ A → 0 ≤ B →
  resolve_range total
    (Some ("bytes=" +:+ Py.str A +:+ "-" +:+ Py.str B +:+ "-" +:+ t))
  = resolve_range total (Some ("bytes=" +:+ Py.str A +:+ "-" +:+ Py.str B)).
Proof.
  intros HA HB. rewrite !str_nonneg by done.
  pose proof (str_nat_digits A HA) as HdA.
  pose proof (str_nat_digits B HB) as HdB.
  destruct (str_nat_head A) as (ca & ra & HeA).
  destruct (str_nat_head B) as (cb & rb & HeB).
  unfold resolve_range.
  change (Py.str_truthy ("bytes=" +:+ _)) with true. cbv iota.
  unfold parse_range.
  rewrite !replace_bytes_prefix.
  rewrite !(replace_avoids_app (Py.str_nat A)) by (by apply digits_avoids).
  rewrite !(replace_avoids_app "-") by done.
  rewrite (replace_avoids_app (Py.str_nat B)) by (by apply digits_avoids).
  rewrite (replace_avoids_app "-") by done.
  rewrite (replace_avoids (Py.str_nat B)) by (by apply digits_avoids).
  rewrite !str_app_char.
  rewrite !split_app by (by apply digits_avoids).
  rewrite (split_avoids "-" (Py.str_nat B)) by (by apply digits_avoids).
  unfold item. cbn [lookup list_lookup].
  match goal with
  | |- context [1 <? Z.of_nat (length (?a :: ?b :: ?l))] =>
      replace (1 <? Z.of_nat (length (a :: b :: l))) with true
        by (symmetry; apply Z.ltb_lt; cbn [length]; lia)
  end.
  change (1 <? Z.of_nat (length [Py.str_nat A; Py.str_nat B])) with true.
  reflexivity.
Qed.

(** X4.  The unit is optional: a header [Range: t] is handled exactly as
    [Range: bytes=t], for every non-empty [t]: the two requests get the
    same answer. *)
Theorem range_unit_optional (fs : gmap string Fs.node) (filename : string)
    (r r' : request) (t : string) :
  t ≠ "" →
  req_query r = req_query r' →
  req_headers r !! "Range" = Some ("bytes=" +:+ t) →
  req_headers r' !! "Range" = Some t →
  serve_file fs filename r = serve_file fs filename r'.
Proof.
  intros Ht Hq Hr Hr'. apply serve_file_ext; [done|].
  intros node _. rewrite Hr, Hr'.
  apply resolve_range_replace; [done|done|apply replace_bytes_prefix].
Qed.

(** X5.  Only the first two parts of the header count: [bytes=A-B-t] is
    answered as [bytes=A-B], whatever [t] is. *)
Theorem range_extra_parts_ignored (fs : gmap string Fs.node)
    (filename : string) (r r' : request) (A B : Z) (t : string) :
  0 ≤ A → 0 ≤ B →
  req_query r = req_query r' →
  req_headers r !! "Range"
    = Some ("bytes=" +:+ Py.str A +:+ "-" +:+ Py.str B +:+ "-" +:+ t) →
  req_headers r' !! "Range"
    = Some ("bytes=" +:+ Py.str A +:+ "-" +:+ Py.str B) →
  serve_file fs filename r = serve_file fs filename r'.
Proof.
  intros HA HB Hq Hr Hr'. apply serve_file_ext; [done|].
  intros node _. rewrite Hr, Hr'. by apply resolve_extra_parts.
Qed.

(** X6.  [bytes=A-B] with numbers [A] and [B] that [int] reads (at most
    4300 digits each) is answered with 416 exactly when [A] lies beyond
    [B] or beyond the last byte of the file. *)
Theorem explicit_range_unsatisfiable (fs : gmap string Fs.node)
    (filename : string) (file : Fs.file) (r : request) (A B : Z) :
  fs !! filename = Some (Fs.Regular file) →
  0 ≤ A < 10 ^ Py.int_max_str_digits →
  0 ≤ B < 10 ^ Py.int_max_str_digits →
  req_headers r !! "Range"
    = Some ("bytes=" +:+ Py.str A +:+ "-" +:+ Py.str B) →
  (serve_file fs filename r
   = Py.Ok (Response_text "Requested Range Not Satisfiable" 416)
   ↔ B < A ∨ Fs.getsize file ≤ A).
Proof.
  intros Hfile HA HB Hrange.
  destruct (serve_file_416_iff fs filename file r Hfile) as [-> _].
  rewrite Hrange, resolve_explicit by done.
  cbn [l_start_byte l_end_byte l_status_code].
  destruct (Z.leb_spec (Fs.getsize file) B); lia.
Qed.


End more_ranges.

(** ** Headers and chunks of a served file *)

Section more_headers.
Import Werkzeug Server.
Context `{Runtime}.

(** [Headers(d)] treats alike two dicts that differ at one name only,
    where neither holds a line break. *)
Lemma headers_of_dict_agree (d d' : gmap string string) (name : string) :
  (∀ k, k ≠ name → d !! k = d' !! k) →
  (∀ v, d !! name = Some v → has_newline v = false) →
  (∀ v, d' !! name = Some v → has_newline v = false) →
  match headers_of_dict d, headers_of_dict d' with
  | Py.Ok hs, Py.Ok hs' =>
      ∀ k v, k ≠ name → ((k, v) ∈ hs ↔ (k, v) ∈ hs')
  | Py.Raise e, Py.Raise e' => e = e'
  | _, _ => False
  end.
Proof.
  intros Hagree Hd Hd'. unfold headers_of_dict.
  assert (∀ (a b : gmap string string),
            (∀ k, k ≠ name → a !! k = b !! k) →
            (∀ v, a !! name = Some v → has_newline v = false) →
            existsb (λ kv : string * string, has_newline kv.2)
              (map_to_list a) = true →
            existsb (λ kv : string * string, has_newline kv.2)
              (map_to_list b) = true) as Hmove.
  { intros a b Hab Ha
      ([k v] & Hin%list_elem_of_In%elem_of_map_to_list & Hnl)%existsb_exists.
    cbn in Hnl. apply existsb_exists. exists (k, v). split; [|done].
    apply list_elem_of_In, elem_of_map_to_list.
    destruct (decide (k = name)) as [->|Hne].
    - by rewrite (Ha v Hin) in Hnl.
    - by rewrite <- Hab. }
  destruct (existsb _ (map_to_list d)) eqn:Hex,
    (existsb _ (map_to_list d')) eqn:Hex'; try done.
  - rewrite (Hmove d d' Hagree Hd Hex) in Hex'. done.
  - rewrite (Hmove d' d) in Hex; [done| |done|done].
    intros k Hk. symmetry. by apply Hagree.
  - intros k v Hk. rewrite !elem_of_map_to_list. by rewrite Hagree.
Qed.

(** And so does [Response(stream, ...)]. *)
Lemma response_stream_agree (g : generator) (code : Z)
    (d d' : gmap string string) (name : string) :
  (∀ k, k ≠ name → d !! k = d' !! k) →
  (∀ v, d !! name = Some v → has_newline v = false) →
  (∀ v, d' !! name = Some v → has_newline v = false) →
  match Response_stream g code d, Response_stream g code d' with
  | Py.Ok resp, Py.Ok resp' =>
      status resp = status resp'
      ∧ body_of resp = body_of resp'
      ∧ ∀ k v, k ≠ name → ((k, v) ∈ headers resp ↔ (k, v) ∈ headers resp')
  | Py.Raise e, Py.Raise e' => e = e'
  | _, _ => False
  end.
Proof.
  intros Hagree Hd Hd'. unfold Response_stream.
  pose proof (headers_of_dict_agree d d' name Hagree Hd Hd') as Ha.
  by destruct (headers_of_dict d), (headers_of_dict d').
Qed.

(** X9.  [no_content_length] changes nothing but the [Content-Length]
    header: two requests with the same [Range] header get the same
    status, the same body and, but for [Content-Length], the same
    headers, whatever their query strings; and if the handler raises
    for one it raises the same exception for the other. *)
Theorem query_only_affects_content_length (fs : gmap string Fs.node)
    (filename : string) (r r' : request) :
  req_headers r !! "Range" = req_headers r' !! "Range" →
  match serve_file fs filename r, serve_file fs filename r' with
  | Py.Ok resp, Py.Ok resp' =>
      status resp = status resp'
      ∧ body_of resp = body_of resp'
      ∧ ∀ k v, k ≠ "Content-Length" →
          ((k, v) ∈ headers resp ↔ (k, v) ∈ headers resp')
  | Py.Raise e, Py.Raise e' => e = e'
  | _, _ => False
  end.
Proof.
  intros Hrange. unfold serve_file.
  destruct (fs !! filename) as [node|]; [|done].
  cbv zeta. rewrite <- Hrange. set (l := resolve_range _ _).
  destruct (l_end_byte l <? l_start_byte l); [done|].
  destruct (http_date _) as [date|e]; [|done].
  destruct (bool_decide (md_get (args r) "no_content_length" = Some "true")),
    (bool_decide (md_get (args r') "no_content_length" = Some "true")),
    (l_status_code l =? 206), (Py.endswith _ _); cbn [negb];
    apply response_stream_agree;
    try (intros k Hk; rewrite ?lookup_insert; repeat case_decide;
         simplify_eq; done);
    intros v Hv; simplify_map_eq; apply has_newline_str.
Qed.

(** X10.  For a path that exists, a range that is not empty and a file
    that can be announced, the response carries [Accept-Ranges: bytes],
    a [Content-Disposition] naming the file, and one [Content-Type]:
    [application/zip] when the lower-cased name ends in [.zip],
    [application/octet-stream] otherwise.  No header name occurs twice,
    and no header value holds a line break. *)
Theorem served_file_headers (fs : gmap string Fs.node) (filename : string)
    (node : Fs.node) (r : request) :
  fs !! filename = Some node →
  servable filename node →
  let l := resolve_range (Fs.getsize node) (req_headers r !! "Range") in
  l_start_byte l ≤ l_end_byte l →
  ∃ resp,
    serve_file fs filename r = Py.Ok resp
    ∧ ("Accept-Ranges", "bytes") ∈ headers resp
    ∧ ("Content-Disposition", "attachment; filename=" +:+ filename)
        ∈ headers resp
    ∧ (∀ v, ("Content-Type", v) ∈ headers resp
            ↔ v = if Py.endswith (str_lower filename) ".zip"
                  then "application/zip" else "application/octet-stream")
    ∧ NoDup (headers resp).*1
    ∧ ∀ k v, (k, v) ∈ headers resp → has_newline v = false.
Proof.
  intros Hfile Hserv l Hle.
  destruct (serve_file_streamed fs filename node r Hfile Hle Hserv)
    as (resp & hdrs & date & Hresp & _ & _ & _ & Hh & _ & _ & Har & _ & _
        & Hcd & Hct & Hclean).
  exists resp. split; [done|]. rewrite Hh.
  split; [by apply elem_of_map_to_list|].
  split; [by apply elem_of_map_to_list|]. split.
  { intros v. rewrite elem_of_map_to_list, Hct. naive_solver. }
  split; [apply NoDup_fst_map_to_list|].
  intros k v Hin%elem_of_map_to_list. exact (Hclean k v Hin).
Qed.
End more_headers.

Section chunk_count.
Import Werkzeug Server.

(** Rounding up: one chunk of [min cs b] bytes fewer, one chunk less. *)
Lemma ceil_div_step (b cs : Z) :
  0 < cs → 0 < b →
  1 + (b - Z.min cs b + cs - 1) / cs = (b + cs - 1) / cs.
Proof.
  intros Hcs Hb. destruct (Z.le_gt_cases b cs) as [Hsmall|Hbig].
  - rewrite Z.min_r by lia.
    replace (b - b + cs - 1) with (cs - 1) by lia.
    rewrite Z.div_small by lia.
    apply (Z.div_unique _ _ 1 (b - 1)); lia.
  - rewrite Z.min_l by lia.
    replace (b + cs - 1) with (b - cs + cs - 1 + 1 * cs) by lia.
    rewrite Z.div_add by lia. lia.
Qed.



Context `{Runtime}.

End chunk_count.

(** ** The echo endpoints *)

Section more_echo.
Import Werkzeug Server Echo.
Context `{Runtime}.

(** [to_dict] of the multi-dict of a list of pairs maps a key to the
    value given first for it. *)
Lemma md_to_dict_lookup (q : list (string * string)) (k : string) :
  md_to_dict (md_of_pairs q) !! k = assoc_first k q.
Proof.
  unfold md_to_dict. rewrite md_items_of_pairs.
  rewrite <- (assoc_first_firsts [] q k) by (by intros ?%elem_of_nil).
  pose proof (firsts_NoDup [] q) as Hnd.
  destruct (assoc_first k (firsts [] q)) as [v|] eqn:Hv.
  - apply elem_of_list_to_map; [done|]. by apply assoc_first_elem.
  - apply not_elem_of_list_to_map.
    intros ([k' v] & Hk & Hin)%list_elem_of_fmap. cbn in Hk. subst k'.
    by rewrite (assoc_first_NoDup _ _ _ Hnd Hin) in Hv.
Qed.

(** When the accessor raises, and what. *)
Lemma get_json_data_raise_iff (r : request) (e : Py.exn) :
  get_json_data r = Py.Raise e
  ↔ is_json r = true
    ∧ ∃ e0, json_loads_bytes (req_data r) = Py.Raise e0
        ∧ e = if Py.is_value_error e0 then Py.BadRequest else e0.
Proof.
  unfold get_json_data, request_json, try_load. destruct (is_json r).
  - destruct (json_loads_bytes (req_data r)) as [v|e0].
    + split; [done|]. by intros (_ & e1 & ? & _).
    + split.
      * intros He. split; [done|]. exists e0. split; [done|].
        destruct (Py.is_value_error e0); by injection He.
      * intros (_ & e1 & [= <-] & ->).
        by destruct (Py.is_value_error e0).
  - split; [|by intros [? _]].
    destruct (Py.bytes_truthy (req_data r)); [|done].
    destruct (utf8_decode (req_data r)) as [text|]; [|done].
    destruct (json_loads text); done.
Qed.

(** X12.  [get_json_data] raises in one case only: a JSON content type
    with a body at which the framework's decoder raises.  The exception
    is then [BadRequest] when the decoder raised a [ValueError], and
    the decoder's own exception otherwise ([RecursionError] for a body
    nested too deeply).  Under any other content type it returns, and
    an empty body gives [None]. *)
Theorem get_json_data_raises_only_bad_json (r : request) :
  (∀ e, get_json_data r = Py.Raise e
        ↔ is_json r = true
          ∧ ∃ e0, json_loads_bytes (req_data r) = Py.Raise e0
              ∧ e = if Py.is_value_error e0 then Py.BadRequest else e0)
  ∧ (is_json r = false → req_data r = [] →
     get_json_data r = Py.Ok Json.JNone).
Proof.
  split; [apply get_json_data_raise_iff|].
  unfold get_json_data, try_load. intros -> ->. done.
Qed.

(** X13.  [echo_post] fails in two cases only: the body is not UTF-8
    ([UnicodeDecodeError], whatever the content type), or it is UTF-8
    but is sent as JSON and the framework's decoder raises at it
    ([BadRequest] for a [ValueError] of the decoder, else the decoder's
    own exception).  When it answers, [data] is the decoded body and
    [json] is what [get_json_data] returns. *)
Theorem echo_post_failures (r : request) :
  (∀ e, echo_post r = Py.Raise e
        ↔ (e = Py.UnicodeDecodeError ∧ utf8_decode (req_data r) = None)
          ∨ (is_Some (utf8_decode (req_data r))
             ∧ is_json r = true
             ∧ ∃ e0, json_loads_bytes (req_data r) = Py.Raise e0
                 ∧ e = if Py.is_value_error e0 then Py.BadRequest else e0))
  ∧ (∀ m, echo_post r = Py.Ok m →
       utf8_decode (req_data r) = Some (e_data m)
       ∧ get_json_data r = Py.Ok (e_json m)
       ∧ e_headers m = req_headers r).
Proof.
  pose proof (get_json_data_raise_iff r) as Hraise.
  unfold echo_post, decode_data.
  destruct (utf8_decode (req_data r)) as [text|] eqn:Htext.
  2:{ split; [|done]. intros e. split; [intros [= <-]; by left|].
      intros [[-> _]|([? ?] & _)]; done. }
  destruct (get_json_data r) as [v|e0] eqn:Hjson.
  - split; [|by intros m [= <-]]. intros e. split; [done|].
    intros [[_ ?]|(_ & Hrest)]; [done|].
    by apply (Hraise e) in Hrest.
  - split; [|done]. intros e. split.
    + intros [= <-]. right. split; [by eexists|]. by apply Hraise.
    + intros [[_ ?]|(_ & Hrest)]; [done|].
      apply (Hraise e) in Hrest. congruence.
Qed.

(** X15.  A repeated query parameter or form field is echoed with the
    value given first: in the dicts of [/get] and [/post], [args] maps
    a name to the first value of that name in the query string, and
    [form] likewise for the form. *)
Theorem echoed_args_first_value (r : request) (k : string) :
  g_args (httpbin_get r) !! k = assoc_first k (req_query r)
  ∧ ∀ m, httpbin_post r = Py.Ok m →
      m_args m !! k = assoc_first k (req_query r)
      ∧ m_form m !! k = assoc_first k (req_form r).
Proof.
  split; [apply md_to_dict_lookup|].
  unfold httpbin_post. intros m.
  destruct (get_json_data r); [|done]. destruct (decode_data r); [|done].
  intros [= <-]. cbn [m_args m_form]. unfold args, form.
  by rewrite !md_to_dict_lookup.
Qed.
End more_echo.

(** ** More on [/response-headers] *)

Section more_response_headers.
Import Werkzeug Server.
Context `{Runtime}.

(** The items of the multi-dict of a query string are its names, each
    with the value given first for it. *)
Lemma md_items_first (q : list (string * string)) (k v : string) :
  (k, v) ∈ md_items (md_of_pairs q) ↔ assoc_first k q = Some v.
Proof.
  rewrite md_items_of_pairs.
  rewrite <- (assoc_first_firsts [] q k) by (by intros ?%elem_of_nil).
  split; [apply assoc_first_NoDup, firsts_NoDup|apply assoc_first_elem].
Qed.

(** The loop stops at the first value with a line break, whatever the
    headers are. *)
Lemma set_all_raises (items : list (string * string)) (hs : Headers)
    (e : Py.exn) :
  set_all items hs = Py.Raise e
  ↔ e = Py.ValueError ∧ Exists (λ kv, has_newline kv.2 = true) items.
Proof.
  revert hs. induction items as [|[k v] items IH]; intros hs; cbn.
  - split; [done|]. by intros [_ ?%Exists_nil].
  - unfold headers_set. rewrite Exists_cons. cbn [snd].
    destruct (has_newline v); [naive_solver|].
    rewrite IH. naive_solver.
Qed.

Lemma last_named_elem (items : list (string * string)) (k : string)
    (kv : string * string) :
  last_named k items = Some kv → kv ∈ items ∧ same_name kv.1 k = true.
Proof.
  induction items as [|h items IH]; [done|]. cbn.
  destruct (last_named k items) as [kv'|].
  - intros [= <-]. destruct (IH eq_refl) as [? ?].
    split; [by apply list_elem_of_further|done].
  - destruct (same_name h.1 k) eqn:Hh; [|done]. intros [= <-].
    split; [apply list_elem_of_here|done].
Qed.

Lemma last_named_none (items : list (string * string)) (k : string) :
  (∀ k0, k0 ∈ items.*1 → same_name k0 k = false) → last_named k items = None.
Proof.
  intros Hno. destruct (last_named k items) as [[k0 v0]|] eqn:Hl; [|done].
  apply last_named_elem in Hl as [Hin Hsame]. cbn in Hsame.
  rewrite (Hno k0) in Hsame; [done|].
  by apply (list_elem_of_fmap_2 fst _ (k0, v0)).
Qed.

(** X16.  [/response-headers] fails exactly when the value given first
    for some parameter name holds a carriage return or a line feed, and
    then with [ValueError]; a line break in a later value of a repeated
    name does no harm. *)
Theorem response_headers_refuses_line_breaks (r : request) (e : Py.exn) :
  response_headers r = Py.Raise e
  ↔ e = Py.ValueError
    ∧ ∃ k v, assoc_first k (req_query r) = Some v ∧ has_newline v = true.
Proof.
  unfold response_headers, args.
  destruct (set_all _ _) as [hs|e'] eqn:Hall.
  - split; [done|]. intros [_ (k & v & Hv & Hnl)]. exfalso.
    assert (set_all (md_items (md_of_pairs (req_query r)))
              (headers (Response_text "Headers set" 200))
            = Py.Raise Py.ValueError) as Hr; [|congruence].
    apply set_all_raises. split; [done|]. apply Exists_exists.
    exists (k, v). split; [by apply md_items_first|done].
  - apply set_all_raises in Hall as [-> Hex].
    apply Exists_exists in Hex as ([k v] & Hin & Hnl).
    apply md_items_first in Hin. naive_solver.
Qed.

(** X17.  An answer of [/response-headers] has status 200 and the body
    [Headers set].  A default header ([Content-Type],
    [Content-Length: 11]) is still there, with its default value only,
    unless a query parameter has that name, compared without case. *)
Theorem response_headers_defaults_kept (r : request) (resp : response) :
  response_headers r = Py.Ok resp →
  status resp = 200
  ∧ body_of resp = Fixed "Headers set"
  ∧ ∀ name value,
      (name, value) ∈ [("Content-Type", "text/html; charset=utf-8");
                       ("Content-Length", "11")] →
      (∀ k, k ∈ (req_query r).*1 → same_name k name = false) →
      (name, value) ∈ headers resp
      ∧ ∀ v, (name, v) ∈ headers resp → v = value.
Proof.
  unfold response_headers, args.
  destruct (set_all _ _) as [hs|] eqn:Hall; [|done]. intros [= <-].
  cbn [status body_of headers]. do 2 (split; [done|]).
  intros name value Hdef Hno.
  pose proof (named_set_all _ _ _ name Hall) as Hnamed.
  rewrite last_named_none in Hnamed.
  2:{ intros k0 (kv & -> & Hin)%list_elem_of_fmap. apply Hno.
      destruct kv as [k0 v0]. apply md_items_first in Hin.
      apply assoc_first_elem in Hin.
      by apply (list_elem_of_fmap_2 fst _ (k0, v0)). }
  assert (∀ v, (name, v) ∈ hs
               ↔ (name, v) ∈ headers (Response_text "Headers set" 200))
    as Hsame.
  { intros v. split.
    - intros Hin.
      assert ((name, v) ∈ named name hs) as Hn.
      { apply list_elem_of_filter. split; [apply same_name_refl|done]. }
      rewrite Hnamed in Hn. by apply list_elem_of_filter in Hn as [_ ?].
    - intros Hin.
      assert ((name, v) ∈ named name hs) as Hn.
      { rewrite Hnamed. apply list_elem_of_filter.
        split; [apply same_name_refl|done]. }
      by apply list_elem_of_filter in Hn as [_ ?]. }
  split; [by apply Hsame|].
  intros v Hv%Hsame. cbn [headers Response_text] in Hv.
  change (Py.str (Z.of_nat (String.length "Headers set"))) with "11" in Hv.
  repeat (apply elem_of_cons in Hdef as [[= -> ->]|Hdef]);
    [..|by apply elem_of_nil in Hdef];
    repeat (apply elem_of_cons in Hv as [[= ->]|Hv]); try done;
    by apply elem_of_nil in Hv.
Qed.

(** X18.  [/response-headers] adds nothing of its own: every header of
    its answer is one of the two default headers or a query parameter
    with the value given first for it. *)
Theorem response_headers_only_echoes (r : request) (resp : response) :
  response_headers r = Py.Ok resp →
  ∀ name value,
    (name, value) ∈ headers resp →
    (name, value) ∈ [("Content-Type", "text/html; charset=utf-8");
                     ("Content-Length", "11")]
    ∨ assoc_first name (req_query r) = Some value.
Proof.
  unfold response_headers, args.
  destruct (set_all _ _) as [hs|] eqn:Hall; [|done]. intros [= <-].
  cbn [headers]. intros name value Hin.
  assert ((name, value) ∈ named name hs) as Hn.
  { apply list_elem_of_filter. split; [apply same_name_refl|done]. }
  rewrite (named_set_all _ _ _ name Hall) in Hn.
  destruct (last_named name _) as [kv|] eqn:Hl.
  - right. apply list_elem_of_singleton in Hn as <-.
    apply last_named_elem in Hl as [Hl _]. by apply md_items_first.
  - left. by apply list_elem_of_filter in Hn as [_ ?].
Qed.
End more_response_headers.

(** ** The upload endpoints *)

Section more_upload.
Import Werkzeug Server Upload.
Context `{Runtime}.

(** From any position, the loop collects all the bytes that are left,
    and sleeps once for each read that returns data. *)
Lemma read_loop_rest (fuel : nat) (st : reader) :
  0 ≤ Fs.f_pos (stream st) →
  let rest := drop (Z.to_nat (Fs.f_pos (stream st))) (Fs.f_content (stream st)) in
  (length rest < fuel)%nat →
  ∃ st', read_loop fuel st = Some st'
       ∧ data st' = data st ++ rest
       ∧ (slept st' == slept st + inject_Z ((Z.of_nat (length rest) + 1023) / 1024) * (1 # 20))%Q.
Proof.
  revert st. induction fuel as [|fuel IH]; intros st Hpos rest Hfuel; [lia|].
  cbn [read_loop]. unfold Fs.read, chunk_size.
  change (1024 <? 0) with false. cbv iota. fold rest.
  destruct rest as [|b rest'] eqn:Hrest.
  - rewrite take_nil. cbn [Py.bytes_truthy negb]. eexists.
    split; [reflexivity|]. cbn [data slept].
    split; [by rewrite app_nil_r|].
    change (inject_Z _) with 0%Q. ring.
  - rewrite <- Hrest in *.
    assert (take (Z.to_nat 1024) rest ≠ []) as Hne by (by rewrite Hrest).
    destruct (take (Z.to_nat 1024) rest) as [|c chunk] eqn:Hchunk; [done|].
    cbn [Py.bytes_truthy negb]. rewrite <- Hchunk in *.
    set (st1 := {| stream := _; data := _; slept := _ |}).
    assert (drop (Z.to_nat (Fs.f_pos (stream st1))) (Fs.f_content (stream st1))
            = drop (Z.to_nat 1024) rest) as Hdrop.
    { subst st1. cbn [stream Fs.f_pos Fs.f_content].
      rewrite Z2Nat.inj_add, Nat2Z.id, <- drop_drop by lia. fold rest.
      destruct (Nat.le_gt_cases (Z.to_nat 1024) (length rest)).
      - by rewrite length_take_le.
      - by rewrite take_ge, !drop_ge by lia. }
    assert (length (take (Z.to_nat 1024) rest) = Z.to_nat (Z.min 1024 (Z.of_nat (length rest))))
      as Hlen by (rewrite length_take; lia).
    assert (0 < length rest)%nat as Hpos' by (rewrite Hrest; cbn; lia).
    destruct (IH st1) as (st' & Hrun & Hdata & Hslept).
    { subst st1. cbn [stream Fs.f_pos]. lia. }
    { rewrite Hdrop, length_drop. lia. }
    exists st'. split; [done|]. rewrite Hdrop in Hdata, Hslept.
    split.
    + rewrite Hdata. subst st1. cbn [data].
      by rewrite <- app_assoc, take_drop.
    + rewrite Hslept. subst st1. cbn [slept]. rewrite length_drop.
      replace ((Z.of_nat (length rest) + 1023) / 1024)
        with (1 + (Z.of_nat (length rest - Z.to_nat 1024) + 1023) / 1024).
      * rewrite inject_Z_plus. ring.
      * replace (Z.of_nat (length rest) + 1023)
          with (Z.of_nat (length rest) + 1024 - 1) by lia.
        rewrite <- (ceil_div_step (Z.of_nat (length rest)) 1024) by lia.
        do 2 f_equal. lia.
Qed.

(** X19.  [upload_binary] answers for every body, given reads enough:
    a body of fewer than 100 bytes is echoed as text if it decodes as
    UTF-8 and raises [UnicodeDecodeError] if not; a body of 100 bytes
    or more is never decoded, and the answer is its length in decimal:
    a string of digits that denotes the length, and that [int] reads
    back as long as it has no more digits than [int] accepts. *)
Theorem upload_binary_answer (fuel : nat) (body : list byte) :
  (length body < fuel)%nat →
  ∃ t, upload_binary fuel {| Fs.f_content := body; Fs.f_pos := 0 |}
       = Some (if (length body <? 100)%nat
               then match utf8_decode body with
                    | Some text => Py.Ok text
                    | None => Py.Raise Py.UnicodeDecodeError
                    end
               else Py.Ok (Py.str (Z.of_nat (length body))), t)
     ∧ digits (Py.str (Z.of_nat (length body)))
     ∧ dec_value (Py.str (Z.of_nat (length body))) 0
       = Z.of_nat (length body)
     ∧ (Z.of_nat (length body) < 10 ^ Py.int_max_str_digits →
        Py.int_ (Py.str (Z.of_nat (length body)))
        = Py.Ok (Z.of_nat (length body))).
Proof.
  intros Hfuel. unfold upload_binary.
  destruct (read_loop_rest fuel
              {| stream := {| Fs.f_content := body; Fs.f_pos := 0 |};
                 data := []; slept := 0%Q |}) as (st & -> & Hdata & _);
    [done..|].
  change (data st = body) in Hdata. rewrite Hdata.
  eexists. split.
  2:{ rewrite str_nonneg by lia.
      split; [apply str_nat_digits; lia|].
      split; [apply str_nat_value; lia|].
      intros Hlen. apply int_str_nat. lia. }
  destruct (Nat.ltb_spec (length body) 100).
  - by rewrite (proj2 (Z.ltb_lt _ 100)) by lia.
  - by rewrite (proj2 (Z.ltb_ge _ 100)) by lia.
Qed.

(** X20.  [upload_binary] sleeps 50ms for every started kilobyte of the
    body: no sleep for an empty body, one for 1 to 1024 bytes, and so
    on. *)
Theorem upload_binary_pacing (fuel : nat) (body : list byte) :
  (length body < fuel)%nat →
  ∃ answer t,
    upload_binary fuel {| Fs.f_content := body; Fs.f_pos := 0 |}
    = Some (answer, t)
    ∧ (t == inject_Z ((Z.of_nat (length body) + 1023) / 1024) * (1 # 20))%Q.
Proof.
  intros Hfuel. unfold upload_binary.
  destruct (read_loop_rest fuel
              {| stream := {| Fs.f_content := body; Fs.f_pos := 0 |};
                 data := []; slept := 0%Q |}) as (st & -> & _ & Hslept);
    [done..|].
  change (slept st == 0 + inject_Z ((Z.of_nat (length body) + 1023) / 1024)
                          * (1 # 20))%Q in Hslept.
  do 2 eexists. split; [reflexivity|]. rewrite Hslept. ring.
Qed.

(** X21.  [upload_file] answers 404 [No file] exactly when no file part
    is named [file]; otherwise it answers as [upload_multi] does, which
    never looks at the file parts: the form fields, a repeated field
    with the value given first. *)
Theorem upload_file_needs_file_part (files : list (string * string))
    (r : request) :
  (upload_file files r = Plain (Response_text "No file" 404)
   ↔ "file" ∉ files.*1)
  ∧ ("file" ∈ files.*1 → upload_file files r = upload_multi files r)
  ∧ ∃ fields, upload_multi files r = JsonOf fields
      ∧ ∀ k, fields !! k = assoc_first k (req_form r).
Proof.
  unfold upload_file, upload_multi, has_part. split; [|split].
  - case_bool_decide; cbn [negb]; naive_solver.
  - intros Hin. by rewrite bool_decide_eq_true_2.
  - eexists. split; [done|]. intros k. apply md_to_dict_lookup.
Qed.
End more_upload.

(** ** Suffix ranges *)

Section more_suffix.
Import Werkzeug Server.
Context `{Runtime}.

(** X23.  A suffix range [bytes=-N], [N] a number that [int] reads (at
    most 4300 digits), is answered with 416 exactly when [N] is 0; a
    suffix longer than the file is not refused. *)
Theorem suffix_unsatisfiable_only_zero (fs : gmap string Fs.node)
    (filename : string) (file : Fs.file) (r : request) (N : Z) :
  fs !! filename = Some (Fs.Regular file) →
  0 ≤ N < 10 ^ Py.int_max_str_digits →
  req_headers r !! "Range" = Some ("bytes=-" +:+ Py.str N) →
  (serve_file fs filename r
   = Py.Ok (Response_text "Requested Range Not Satisfiable" 416)
   ↔ N = 0).
Proof.
  intros Hfile HN Hrange.
  destruct (serve_file_416_iff fs filename file r Hfile) as [-> _].
  rewrite Hrange, resolve_suffix by done.
  cbn [l_start_byte l_end_byte]. lia.
Qed.
End more_suffix.

(** ** Directories and numerals that [int] refuses *)

Section more_edges.
Import Werkzeug Server.
Context `{Runtime}.

(** X25.  A directory passes [os.path.exists]: when its size makes the
    resolved range non-empty and it can be announced, the handler
    returns a 200 or 206 stream, and the first resumption of the
    generator raises [IsADirectoryError] at [open], before any
    chunk. *)
Theorem directory_is_streamed (fs : gmap string Fs.node) (filename : string)
    (d : Fs.dir) (r : request) :
  fs !! filename = Some (Fs.Directory d) →
  servable filename (Fs.Directory d) →
  let l := resolve_range (Fs.d_size d) (req_headers r !! "Range") in
  l_start_byte l ≤ l_end_byte l →
  ∃ resp g,
    serve_file fs filename r = Py.Ok resp
    ∧ (status resp = 200 ∨ status resp = 206)
    ∧ body_of resp = Streamed g
    ∧ ∀ fuel, drain fs (S fuel) g = ([], Failed Py.IsADirectoryError).
Proof.
  intros Hfile Hserv l Hle.
  destruct (serve_file_streamed fs filename (Fs.Directory d) r Hfile Hle Hserv)
    as (resp & hdrs & date & Hresp & _ & Hst & Hbody & _).
  exists resp. eexists. split; [done|]. split.
  { rewrite Hst. apply resolve_range_status. }
  split; [exact Hbody|]. intros fuel.
  rewrite drain_S. cbn [next file_path]. by rewrite Hfile.
Qed.

(** [str] writes at least as many digits as the number needs. *)
Lemma count_digits_str_go_lower (k : nat) (n m : Z) (acc : string) :
  0 ≤ m → 10 ^ m ≤ n → n < 10 ^ Z.of_nat (S k) →
  m + 1 + Py.count_digits acc ≤ Py.count_digits (Py.str_go k n acc).
Proof.
  revert n m acc. induction k as [|k IH]; intros n m acc Hm Hlo Hhi;
    cbn [Py.str_go].
  - cbn [Py.count_digits].
    assert (0 < 10 ^ m) by (apply Z.pow_pos_nonneg; lia).
    change (10 ^ Z.of_nat 1) with 10 in Hhi.
    rewrite digit_of_digit_char by (apply Z.mod_pos_bound; lia).
    assert (m = 0); [|lia].
    destruct (decide (m = 0)) as [|Hne]; [done|].
    assert (10 ^ 1 ≤ 10 ^ m) by (apply Z.pow_le_mono_r; lia).
    change (10 ^ 1) with 10 in *. lia.
  - assert (0 < 10 ^ m) by (apply Z.pow_pos_nonneg; lia).
    destruct (n <? 10) eqn:Hlt.
    + apply Z.ltb_lt in Hlt. cbn [Py.count_digits].
      rewrite digit_of_digit_char by (apply Z.mod_pos_bound; lia).
      assert (m = 0); [|lia].
      destruct (decide (m = 0)) as [|Hne]; [done|].
      assert (10 ^ 1 ≤ 10 ^ m) by (apply Z.pow_le_mono_r; lia).
      change (10 ^ 1) with 10 in *. lia.
    + apply Z.ltb_ge in Hlt.
      specialize (IH (n / 10) (Z.max 0 (m - 1))
                    (String (Py.digit_char (n mod 10)) acc)).
      cbn [Py.count_digits] in IH.
      rewrite digit_of_digit_char in IH by (apply Z.mod_pos_bound; lia).
      assert (10 ^ Z.max 0 (m - 1) ≤ n / 10) as Hdiv.
      { apply Z.div_le_lower_bound; [lia|].
        destruct (decide (m = 0)) as [->|Hne].
        - change (10 ^ Z.max 0 (0 - 1)) with 1. lia.
        - rewrite Z.max_r by lia. rewrite <- Z.pow_succ_r by lia.
          replace (Z.succ (m - 1)) with m by lia. done. }
      assert (n / 10 < 10 ^ Z.of_nat (S k)) as Hup.
      { apply Z.div_lt_upper_bound; [lia|].
        rewrite <- Z.pow_succ_r by lia.
        replace (Z.succ (Z.of_nat (S k))) with (Z.of_nat (S (S k))) by lia.
        done. }
      specialize (IH ltac:(lia) Hdiv Hup). lia.
Qed.

(** [int] refuses a numeral of more than [int_max_str_digits] digits,
    well-formed or not. *)
Lemma int_overlong (s : string) :
  Py.int_max_str_digits < Py.count_digits s →
  Py.int_ s = Py.Raise Py.ValueError.
Proof.
  intros Hlong. unfold Py.int_.
  destruct (match Py.skip_space s with
            | String "+" r => Py.int_unsigned r
            | String "-" r => Z.opp <$> Py.int_unsigned r
            | t => Py.int_unsigned t
            end); [|done].
  by rewrite (proj2 (Z.ltb_lt _ _) Hlong).
Qed.

Lemma int_str_overlong (n : Z) :
  10 ^ Py.int_max_str_digits ≤ n → Py.int_ (Py.str n) = Py.Raise Py.ValueError.
Proof.
  intros Hn.
  assert (0 < 10 ^ Py.int_max_str_digits)
    by (apply Z.pow_pos_nonneg; unfold Py.int_max_str_digits; lia).
  rewrite str_nonneg by lia. apply int_overlong. unfold Py.str_nat.
  pose proof (count_digits_str_go_lower (Z.to_nat (Z.log2 n)) n
                Py.int_max_str_digits "") as Hc.
  cbn [Py.count_digits] in Hc. unfold Py.int_max_str_digits in *.
  specialize (Hc ltac:(lia) Hn (log2_fuel n ltac:(lia))). lia.
Qed.

(** [bytes=A-B] with a start of more than 4300 digits: [int] raises
    before anything is assigned. *)
Lemma resolve_overlong_start (total A B : Z) :
  10 ^ Py.int_max_str_digits ≤ A → 0 ≤ B →
  resolve_range total (Some ("bytes=" +:+ Py.str A +:+ "-" +:+ Py.str B))
  = resolve_range total None.
Proof.
  intros HA HB.
  assert (0 < 10 ^ Py.int_max_str_digits)
    by (apply Z.pow_pos_nonneg; unfold Py.int_max_str_digits; lia).
  pose proof (int_str_overlong A HA) as Hint.
  rewrite !str_nonneg in * by lia.
  pose proof (str_nat_digits A ltac:(lia)) as HdA.
  pose proof (str_nat_digits B HB) as HdB.
  destruct (str_nat_head A) as (ca & ra & HeA).
  unfold resolve_range. change (Py.str_truthy _) with true at 1. cbv iota.
  unfold parse_range, mbind, M_bind, mret, M_ret, lift, get_end_byte,
    set_start_byte, set_end_byte, set_status_code.
  rewrite str_app_char.
  rewrite replace_bytes_prefix, replace_avoids.
  2:{ apply avoids_app; [by apply digits_avoids|].
      split; [done|]. by apply digits_avoids. }
  rewrite split_app by (by apply digits_avoids).
  rewrite split_avoids by (by apply digits_avoids).
  unfold item. cbn [lookup list_lookup length].
  rewrite Hint. rewrite HeA. change (1 <? Z.of_nat 2) with true.
  rewrite (bool_decide_eq_false_2 (String ca ra = "")) by discriminate.
  reflexivity.
Qed.

(** X26.  A [Range] header is ignored when [int] refuses its start for
    its length: [bytes=A-B] with an [A] of more than 4300 digits gets
    the answer of the same request without [Range] header. *)
Theorem overlong_range_ignored (fs : gmap string Fs.node) (filename : string)
    (r r' : request) (A B : Z) :
  10 ^ Py.int_max_str_digits ≤ A → 0 ≤ B →
  req_query r = req_query r' →
  req_headers r !! "Range"
    = Some ("bytes=" +:+ Py.str A +:+ "-" +:+ Py.str B) →
  req_headers r' !! "Range" = None →
  serve_file fs filename r = serve_file fs filename r'.
Proof.
  intros HA HB Hq Hr Hr'. unfold serve_file, args.
  destruct (fs !! filename) as [node|]; [|done].
  rewrite Hr, Hr', Hq. by rewrite resolve_overlong_start.
Qed.
End more_edges.

(** ** Worked requests for the further properties *)

Section more_worked.
Import Werkzeug Server Echo Upload Sample.

Ltac sample_servable := split; [reflexivity|eexists; split; reflexivity].


Lemma content_range_iff_partial_witness :
  let r := get [] (Some "bytes=2-5") in
  let l := resolve_range (Fs.getsize ten_file) (req_headers r !! "Range") in
  ∃ resp,
    serve_file disk "ten.bin" r = Py.Ok resp
    ∧ ((∃ v, ("Content-Range", v) ∈ headers resp) ↔ status resp = 206)
    ∧ (∀ v, ("Content-Range", v) ∈ headers resp →
         v = "bytes " +:+ Py.str (l_start_byte l) +:+ "-"
                      +:+ Py.str (l_end_byte l) +:+ "/"
                      +:+ Py.str (Fs.getsize ten_file)
         ∧ l_start_byte l ≤ l_end_byte l < Fs.getsize ten_file).
Proof.
  cbv zeta.
  destruct (serve_file disk "ten.bin" (get [] (Some "bytes=2-5")))
    as [resp|e] eqn:Hresp; [|vm_compute in Hresp; discriminate Hresp].
  exists resp. split; [reflexivity|].
  apply (content_range_iff_partial disk "ten.bin" (Fs.Regular ten_file)
           (get [] (Some "bytes=2-5")) resp eq_refl Hresp).
  vm_compute in Hresp. injection Hresp as <-. discriminate.
Defined.

Lemma range_unit_optional_witness :
  serve_file disk "ten.bin" (get [] (Some "bytes=2-5"))
  = serve_file disk "ten.bin" (get [] (Some "2-5")).
Proof.
  apply (range_unit_optional disk "ten.bin" (get [] (Some "bytes=2-5"))
           (get [] (Some "2-5")) "2-5").
  - discriminate.
  - reflexivity.
  - reflexivity.
  - reflexivity.
Defined.

Lemma range_extra_parts_ignored_witness :
  serve_file disk "ten.bin" (get [] (Some "bytes=2-5-7"))
  = serve_file disk "ten.bin" (get [] (Some "bytes=2-5")).
Proof.
  apply (range_extra_parts_ignored disk "ten.bin"
           (get [] (Some "bytes=2-5-7")) (get [] (Some "bytes=2-5")) 2 5 "7").
  - lia.
  - lia.
  - reflexivity.
  - reflexivity.
  - reflexivity.
Defined.

Lemma explicit_range_unsatisfiable_witness :
  serve_file disk "ten.bin" (get [] (Some "bytes=7-3"))
  = Py.Ok (Response_text "Requested Range Not Satisfiable" 416)
  ↔ 3 < 7 ∨ Fs.getsize ten_file ≤ 7.
Proof.
  apply (explicit_range_unsatisfiable disk "ten.bin" ten_file
           (get [] (Some "bytes=7-3")) 7 3).
  - reflexivity.
  - vm_compute. split; [discriminate|reflexivity].
  - vm_compute. split; [discriminate|reflexivity].
  - reflexivity.
Defined.



Lemma query_only_affects_content_length_witness :
  match serve_file disk "ten.bin"
          (get [("no_content_length", "true")] (Some "bytes=2-5")),
        serve_file disk "ten.bin" (get [] (Some "bytes=2-5")) with
  | Py.Ok resp, Py.Ok resp' =>
      status resp = status resp'
      ∧ body_of resp = body_of resp'
      ∧ ∀ k v, k ≠ "Content-Length" →
          ((k, v) ∈ headers resp ↔ (k, v) ∈ headers resp')
  | Py.Raise e, Py.Raise e' => e = e'
  | _, _ => False
  end.
Proof.
  apply (query_only_affects_content_length disk "ten.bin"
           (get [("no_content_length", "true")] (Some "bytes=2-5"))
           (get [] (Some "bytes=2-5"))).
  reflexivity.
Defined.

Lemma served_file_headers_witness :
  ∃ resp,
    serve_file disk "ten.bin" (get [] None) = Py.Ok resp
    ∧ ("Accept-Ranges", "bytes") ∈ headers resp
    ∧ ("Content-Disposition", "attachment; filename=" +:+ "ten.bin")
        ∈ headers resp
    ∧ (∀ v, ("Content-Type", v) ∈ headers resp
            ↔ v = if Py.endswith (str_lower "ten.bin") ".zip"
                  then "application/zip" else "application/octet-stream")
    ∧ NoDup (headers resp).*1
    ∧ ∀ k v, (k, v) ∈ headers resp → has_newline v = false.
Proof.
  apply (served_file_headers disk "ten.bin" (Fs.Regular ten_file)
           (get [] None)).
  - reflexivity.
  - sample_servable.
  - vm_compute. discriminate.
Defined.


Lemma response_headers_defaults_kept_witness :
  let r := get [("Set-Cookie", "a=1")] None in
  ∃ resp,
    response_headers r = Py.Ok resp
    ∧ status resp = 200
    ∧ body_of resp = Fixed "Headers set"
    ∧ ∀ name value,
        (name, value) ∈ [("Content-Type", "text/html; charset=utf-8");
                         ("Content-Length", "11")] →
        (∀ k, k ∈ (req_query r).*1 → same_name k name = false) →
        (name, value) ∈ headers resp
        ∧ ∀ v, (name, v) ∈ headers resp → v = value.
Proof.
  cbv zeta.
  destruct (response_headers (get [("Set-Cookie", "a=1")] None))
    as [resp|e] eqn:Hresp.
  - exists resp. split; [reflexivity|].
    exact (response_headers_defaults_kept _ resp Hresp).
  - vm_compute in Hresp. discriminate Hresp.
Defined.

Lemma response_headers_only_echoes_witness :
  let r := get [("Set-Cookie", "a=1"); ("Set-Cookie", "b=2")] None in
  ∃ resp,
    response_headers r = Py.Ok resp
    ∧ ∀ name value,
        (name, value) ∈ headers resp →
        (name, value) ∈ [("Content-Type", "text/html; charset=utf-8");
                         ("Content-Length", "11")]
        ∨ assoc_first name (req_query r) = Some value.
Proof.
  cbv zeta.
  destruct (response_headers
              (get [("Set-Cookie", "a=1"); ("Set-Cookie", "b=2")] None))
    as [resp|e] eqn:Hresp.
  - exists resp. split; [reflexivity|].
    exact (response_headers_only_echoes _ resp Hresp).
  - vm_compute in Hresp. discriminate Hresp.
Defined.

Lemma upload_binary_answer_witness :
  ∃ t, upload_binary 11 {| Fs.f_content := ten; Fs.f_pos := 0 |}
       = Some (if (length ten <? 100)%nat
               then match utf8_decode ten with
                    | Some text => Py.Ok text
                    | None => Py.Raise Py.UnicodeDecodeError
                    end
               else Py.Ok (Py.str (Z.of_nat (length ten))), t)
     ∧ digits (Py.str (Z.of_nat (length ten)))
     ∧ dec_value (Py.str (Z.of_nat (length ten))) 0
       = Z.of_nat (length ten)
     ∧ (Z.of_nat (length ten) < 10 ^ Py.int_max_str_digits →
        Py.int_ (Py.str (Z.of_nat (length ten)))
        = Py.Ok (Z.of_nat (length ten))).
Proof.
  apply (upload_binary_answer 11 ten). cbn. lia.
Defined.

Lemma upload_binary_pacing_witness :
  ∃ answer t,
    upload_binary 11 {| Fs.f_content := ten; Fs.f_pos := 0 |}
    = Some (answer, t)
    ∧ (t == inject_Z ((Z.of_nat (length ten) + 1023) / 1024) * (1 # 20))%Q.
Proof.
  apply (upload_binary_pacing 11 ten). cbn. lia.
Defined.

Lemma suffix_unsatisfiable_only_zero_witness :
  serve_file disk "ten.bin" (get [] (Some "bytes=-0"))
  = Py.Ok (Response_text "Requested Range Not Satisfiable" 416)
  ↔ 0 = 0.
Proof.
  apply (suffix_unsatisfiable_only_zero disk "ten.bin" ten_file
           (get [] (Some "bytes=-0")) 0).
  - reflexivity.
  - vm_compute. split; [discriminate|reflexivity].
  - reflexivity.
Defined.
Lemma serve_file_refused_witness :
  serve_file disk cr_name (get [] None) = Py.Raise Py.ValueError.
Proof.
  apply (serve_file_refused disk cr_name (Fs.Regular ten_file) (get [] None)
           "Thu, 01 Jan 1970 00:00:00 GMT").
  - reflexivity.
  - vm_compute. discriminate.
  - reflexivity.
  - reflexivity.
Defined.

Lemma directory_is_streamed_witness :
  ∃ resp g,
    serve_file disk "sub" (get [] None) = Py.Ok resp
    ∧ (status resp = 200 ∨ status resp = 206)
    ∧ body_of resp = Streamed g
    ∧ ∀ fuel, drain disk (S fuel) g = ([], Failed Py.IsADirectoryError).
Proof.
  apply (directory_is_streamed disk "sub" sub_dir (get [] None)).
  - reflexivity.
  - sample_servable.
  - vm_compute. discriminate.
Defined.

Lemma overlong_range_ignored_witness :
  let h := "bytes=" +:+ Py.str (10 ^ Py.int_max_str_digits) +:+ "-"
                    +:+ Py.str 5 in
  serve_file disk "ten.bin"
    {| req_query := []; req_headers := {[ "Range" := h ]};
       req_mimetype := ""; req_data := []; req_form := [];
       req_remote_addr := "127.0.0.1"; req_url := "" |}
  = serve_file disk "ten.bin" (get [] None).
Proof.
  cbv zeta.
  apply (overlong_range_ignored disk "ten.bin" _ (get [] None)
           (10 ^ Py.int_max_str_digits) 5).
  - apply Z.le_refl.
  - lia.
  - reflexivity.
  - cbn [req_headers]. apply lookup_singleton_eq.
  - reflexivity.
Defined.
End more_worked.
